(** * ptr.py: reconciliation of overdue weeks against worked-hours data

    A shallow embedding of [process_csv] and [run] of [ptr.py], and the
    properties of the two functions.

    Conventions of the embedding.
    - A Python [str] is a [string]; a character is a code point below 256.
    - A Python [int] is a [Z].
    - A [dict] keyed by dates is a [gmap date _]; the mapping returned by
      [get_overdue_weeks] is used by [run] only through its keys ([len],
      [keys()], iteration), and is represented by its key set.
    - An exception is a constructor of [exn]; [SystemExit] is kept apart
      from the others, as [run] raises it to end the run.
    - Everything observable (log records, printed lines, calls to the
      collaborators, opening the file) is an [event]; a computation yields
      the events in the order they happen, together with its outcome. *)

From stdpp Require Import gmap sorting strings.
From Stdlib Require Import ZArith Lia Ascii.

Local Open Scope Z_scope.

(** ** Python's built-in string operations *)

Module Py.

(** [str.isspace] on one character, for code points below 256. *)
Definition isspace (c : ascii) : bool :=
  let n := nat_of_ascii c in
  ((9 <=? n) && (n <=? 13) || (28 <=? n) && (n <=? 32)
   || (n =? 133) || (n =? 160))%nat.

Definition isdigit (c : ascii) : bool :=
  let n := nat_of_ascii c in ((48 <=? n) && (n <=? 57))%nat.

Definition digit_value (c : ascii) : Z := Z.of_nat (nat_of_ascii c) - 48.

(** [len(s)] *)
Definition len (s : string) : nat := String.length s.

(** The characters that [int] skips around a literal: as [isspace], less
    the four separators 28 to 31. *)
Definition isspace_int (c : ascii) : bool :=
  let n := nat_of_ascii c in
  ((9 <=? n) && (n <=? 13) || (n =? 32) || (n =? 133) || (n =? 160))%nat.

(** Removal of the leading, and of the trailing, characters that satisfy [p]. *)
Fixpoint strip_left (p : ascii -> bool) (s : string) : string :=
  match s with
  | String c s' => if p c then strip_left p s' else s
  | EmptyString => EmptyString
  end.

Fixpoint strip_right (p : ascii -> bool) (s : string) : string :=
  match s with
  | EmptyString => EmptyString
  | String c s' =>
      match strip_right p s' with
      | EmptyString => if p c then EmptyString else String c EmptyString
      | r => String c r
      end
  end.

(** [s.rstrip()] with no argument: trailing whitespace is removed. *)
Definition rstrip (s : string) : string := strip_right isspace s.

(** [s.split(sep)] for a separator of one character: always at least one
    part, and the empty string splits into one empty part. *)
Fixpoint split (sep : ascii) (s : string) : list string :=
  match s with
  | EmptyString => [EmptyString]
  | String c s' =>
      if Ascii.eqb c sep then EmptyString :: split sep s'
      else match split sep s' with
           | part :: parts => String c part :: parts
           | [] => [String c EmptyString]
           end
  end.

(** [l[i:j]] for [0 <= i <= j]. *)
Definition slice {A} (i j : nat) (l : list A) : list A := take (j - i) (drop i l).

(** The digits of a decimal literal: one or more digits, where single
    underscores may separate digits. [prev] tells whether the character
    before was a digit. *)
Fixpoint int_digits (acc : Z) (prev : bool) (s : string) : option Z :=
  match s with
  | EmptyString => if prev then Some acc else None
  | String c s' =>
      if isdigit c then int_digits (10 * acc + digit_value c) true s'
      else if Ascii.eqb c "_" then
             (if prev then int_digits acc false s' else None)
      else None
  end.

(** The interpreter's limit on the digits of a decimal literal that [int]
    converts, at its default. *)
Definition max_str_digits : nat := 4300.

(** The number of digits of [s]; underscores, like any other character, do
    not count. *)
Fixpoint digit_count (s : string) : nat :=
  match s with
  | EmptyString => 0
  | String c s' => (if isdigit c then 1 else 0) + digit_count s'
  end.

(** A decimal literal within the limit on its digits (leading zeros are
    digits too). *)
Definition int_literal (r : string) : option Z :=
  if (digit_count r <=? max_str_digits)%nat then int_digits 0 false r else None.

(** [int(s)] for a [str]: surrounding whitespace is dropped, one sign is
    allowed, the rest is a decimal literal of at most [max_str_digits]
    digits. [None] stands for the [ValueError] that [int] raises. *)
Definition int (s : string) : option Z :=
  match strip_right isspace_int (strip_left isspace_int s) with
  | String c r =>
      if Ascii.eqb c "+" then int_literal r
      else if Ascii.eqb c "-" then Z.opp <$> int_literal r
      else int_literal (String c r)
  | EmptyString => None
  end.

End Py.

(** ** Dates *)

(** A date, as [datetime.date] and as the [datetime.datetime] values that
    arise here, whose time of day is midnight. The keys of the overdue weeks
    and the keys of the data are both of this type. *)
Record date : Type := mkDate { year : Z; month : Z; day : Z }.

Global Instance date_eq_dec : EqDecision date.
Proof. solve_decision. Defined.

Global Instance date_countable : Countable date.
Proof.
  refine (inj_countable' (λ d, (year d, month d, day d))
                         (λ t, mkDate t.1.1 t.1.2 t.2) _).
  by intros [].
Defined.

Module Datetime.

Definition is_leap (y : Z) : bool :=
  (y mod 4 =? 0) && (negb (y mod 100 =? 0) || (y mod 400 =? 0)).

Definition days_in_month (y m : Z) : Z :=
  if m =? 2 then (if is_leap y then 29 else 28)
  else if (m =? 4) || (m =? 6) || (m =? 9) || (m =? 11) then 30
  else 31.

(** Days of the year before the first of month [m]. *)
Definition days_before_month (y m : Z) : Z :=
  nth (Z.to_nat (m - 1)) [0; 31; 59; 90; 120; 151; 181; 212; 243; 273; 304; 334] 0
  + (if (2 <? m) && is_leap y then 1 else 0).

Definition days_before_year (y : Z) : Z :=
  let y1 := y - 1 in y1 * 365 + y1 / 4 - y1 / 100 + y1 / 400.

(** The constructor's range check: [datetime(y, m, d)] raises [ValueError]
    outside it. *)
Definition valid (d : date) : bool :=
  (1 <=? year d) && (year d <=? 9999) && (1 <=? month d) && (month d <=? 12)
  && (1 <=? day d) && (day d <=? days_in_month (year d) (month d)).

(** [d.toordinal()]: 0001-01-01 is day 1. *)
Definition toordinal (d : date) : Z :=
  days_before_year (year d) + days_before_month (year d) (month d) + day d.

(** [d.weekday()]: Monday is 0 and Sunday is 6. *)
Definition weekday (d : date) : Z := (toordinal d + 6) mod 7.

(** Comparison of dates is that of the triples (year, month, day). *)
Definition le (a b : date) : Prop :=
  year a < year b
  ∨ (year a = year b ∧ (month a < month b ∨ (month a = month b ∧ day a <= day b))).

Definition lt (a b : date) : Prop := le a b ∧ a ≠ b.

Global Instance le_dec : RelDecision le.
Proof. intros a b. unfold le. apply _. Defined.

Global Instance lt_dec : RelDecision lt.
Proof. intros a b. unfold lt. apply _. Defined.

End Datetime.

(** ** The date format and the two conversions that use a format *)

Module Format.

Definition between (lo hi c : ascii) : bool :=
  ((nat_of_ascii lo <=? nat_of_ascii c) && (nat_of_ascii c <=? nat_of_ascii hi))%nat.

(** The directive [%m] of [strptime]: the alternatives [1[0-2]], [0[1-9]]
    and [[1-9]], tried in this order. The value and the rest of the input. *)
Definition directive_m (s : string) : option (Z * string) :=
  match s with
  | String a r =>
      let one := if between "1" "9" a then Some (Py.digit_value a, r) else None in
      match r with
      | String b r' =>
          if Ascii.eqb a "1" && between "0" "2" b then Some (10 + Py.digit_value b, r')
          else if Ascii.eqb a "0" && between "1" "9" b then Some (Py.digit_value b, r')
          else one
      | EmptyString => one
      end
  | EmptyString => None
  end.

(** The directive [%d]: the alternatives [3[0-1]], [[1-2]\d], [0[1-9]],
    [[1-9]] and a space before [[1-9]], tried in this order. *)
Definition directive_d (s : string) : option (Z * string) :=
  match s with
  | String a r =>
      let one := if between "1" "9" a then Some (Py.digit_value a, r) else None in
      match r with
      | String b r' =>
          if Ascii.eqb a "3" && between "0" "1" b then Some (30 + Py.digit_value b, r')
          else if between "1" "2" a && Py.isdigit b
               then Some (10 * Py.digit_value a + Py.digit_value b, r')
          else if Ascii.eqb a "0" && between "1" "9" b then Some (Py.digit_value b, r')
          else match one with
               | Some v => Some v
               | None => if Ascii.eqb a " " && between "1" "9" b
                         then Some (Py.digit_value b, r') else None
               end
      | EmptyString => one
      end
  | EmptyString => None
  end.

(** The directive [%Y]: four digits. *)
Definition directive_Y (s : string) : option (Z * string) :=
  match s with
  | String a (String b (String c (String d r))) =>
      if Py.isdigit a && Py.isdigit b && Py.isdigit c && Py.isdigit d
      then Some (1000 * Py.digit_value a + 100 * Py.digit_value b
                 + 10 * Py.digit_value c + Py.digit_value d, r)
      else None
  | _ => None
  end.

(** Modelled from the spec: [time_reporter.Time_Reporter.DATE_FORMAT], a
    constant of a module that is not part of the sources at hand. The
    specification gives the date column of the file as [YYYY-MM-DD], which
    is the format [%Y-%m-%d]; [strptime] below is
    [datetime.datetime.strptime(s, DATE_FORMAT)] for that format: the three
    directives with a hyphen between them, nothing left over, and the
    range check of the constructor. [None] stands for [ValueError]. *)
Definition strptime (s : string) : option date :=
  match directive_Y s with
  | Some (y, String "-" r1) =>
      match directive_m r1 with
      | Some (m, String "-" r2) =>
          match directive_d r2 with
          | Some (d, EmptyString) =>
              let dt := mkDate y m d in
              if Datetime.valid dt then Some dt else None
          | _ => None
          end
      | _ => None
      end
  | _ => None
  end.

Definition digit_char (n : Z) : ascii := ascii_of_nat (48 + Z.to_nat (n mod 10)).

Definition month_abbr (m : Z) : string :=
  nth (Z.to_nat (m - 1))
      ["Jan"; "Feb"; "Mar"; "Apr"; "May"; "Jun";
       "Jul"; "Aug"; "Sep"; "Oct"; "Nov"; "Dec"] "".

(** The year as [%Y] of [strftime] writes it, for the years 1 to 9999 of
    a date: in decimal, without leading zeros (the C library does not pad
    the year). *)
Definition directive_Y_out (y : Z) : string :=
  Py.strip_left (fun c => Ascii.eqb c "0")
    (String (digit_char (y / 1000)) (String (digit_char (y / 100))
       (String (digit_char (y / 10)) (String (digit_char y) "")))).

(** [d.strftime('%Y-%b-%d')]: the year, the abbreviated month name of the C
    locale, the day with two digits. *)
Definition strftime_Ybd (d : date) : string :=
  directive_Y_out (year d) +:+ "-"
  +:+ month_abbr (month d) +:+ "-"
  +:+ String (digit_char (day d / 10)) (String (digit_char (day d)) "").

End Format.

(** ** Events, outcomes and the monad of the embedding *)

(** The exceptions other than [SystemExit]: the [ValueError] of [int], and
    whatever a collaborator or the file system raises, known by its name. *)
Inductive exn : Type :=
  | ValueError
  | Error (name : string).

Inductive level : Type := DEBUG | INFO | WARNING.

(** The log records of [ptr.py], one constructor per format string, with the
    values that are formatted into it. *)
Inductive message : Type :=
  | Processing_line (line : string)
  | Expecting_6_parts (got : nat)
  | Malformed_date
  | Not_a_Sunday
  | Expected_5_workdays (got : nat)
  | CSV_data (data : gmap date (list Z))
  | Overdue_date (key : date)
  | Found_match (key : date) (val : list Z)
  | Successfully_submitted (week : date) (hours : list Z).

Inductive event : Type :=
  | Log (lvl : level) (msg : message)
  | Print (line : string)
  | Open (infile : string)
  | New_Time_Reporter (username password : string)
  | Get_overdue_weeks
  | New_PyExch (pwd : string)
  | Weekly_hours_worked (start : date)
  | Submit (d : date) (hours : list Z).

(** How a computation ends: it returns, it raises an exception that nothing
    in [ptr.py] catches, or it raises [SystemExit] with the given argument. *)
Inductive outcome (A : Type) : Type :=
  | Return (a : A)
  | Raise (e : exn)
  | SystemExit (code : option string).
Arguments Return {A} a.
Arguments Raise {A} e.
Arguments SystemExit {A} code.

(** A computation: the events it makes, in order, and how it ends. *)
Definition M (A : Type) : Type := list event * outcome A.

Definition ret {A} (a : A) : M A := ([], Return a).

Definition bind {A B} (m : M A) (k : A -> M B) : M B :=
  match snd m with
  | Return a => (fst m ++ fst (k a), snd (k a))
  | Raise e => (fst m, Raise e)
  | SystemExit c => (fst m, SystemExit c)
  end.

Declare Scope py_scope.
Delimit Scope py_scope with py.
Notation "x <- m ;; k" := (bind m (fun x => k))
  (at level 100, m at next level, right associativity) : py_scope.
Notation "m ;; k" := (bind m (fun _ => k))
  (at level 100, right associativity) : py_scope.
Local Open Scope py_scope.

Definition emit (e : event) : M unit := ([e], Return tt).
Definition log (lvl : level) (msg : message) : M unit := emit (Log lvl msg).
Definition print (line : string) : M unit := emit (Print line).
Definition raise {A} (e : exn) : M A := ([], Raise e).
Definition exit {A} (code : option string) : M A := ([], SystemExit code).

(** What a collaborator answers to a call. *)
Inductive answer (A : Type) : Type :=
  | Returns (a : A)
  | Raises (e : exn).
Arguments Returns {A} a.
Arguments Raises {A} e.

(** A call to a collaborator: the event of the call, then its answer. *)
Definition call {A} (e : event) (r : answer A) : M A :=
  (emit e ;; match r with Returns a => ret a | Raises x => raise x end).

Definition trace {A} (m : M A) : list event := fst m.
Definition result {A} (m : M A) : outcome A := snd m.

(** The exit status of the process: 0 when [run] returns or raises
    [SystemExit] without an argument; 1 when [SystemExit] carries a string
    (which the interpreter writes to the standard error stream) and when an
    exception is not caught. *)
Definition exit_status {A} (o : outcome A) : Z :=
  match o with
  | Return _ => 0
  | SystemExit None => 0
  | SystemExit (Some _) => 1
  | Raise _ => 1
  end.

(** ** [process_csv] *)

(** [[ 8 if len(x)<1 else int(x) for x in xs ]]: the hours of the fields
    from left to right, [None] when an [int] raises [ValueError]. *)
Fixpoint weekday_hours_of (xs : list string) : option (list Z) :=
  match xs with
  | [] => Some []
  | x :: xs' =>
      h ← (if (Py.len x <? 1)%nat then Some 8 else Py.int x);
      hs ← weekday_hours_of xs';
      Some (h :: hs)
  end.

(** The body of the loop of [process_csv] for one line [l] of the file, on
    the dictionary [dates_hours] built so far. A [continue] returns the
    dictionary as it is. *)
Definition process_line (dates_hours : gmap date (list Z)) (l : string)
  : M (gmap date (list Z)) :=
  let line := Py.rstrip l in
  log DEBUG (Processing_line line) ;;
  let parts := Py.split "," line in
  if negb (length parts =? 6)%nat then
    log WARNING (Expecting_6_parts (length parts)) ;; ret dates_hours
  else
    match Format.strptime (nth 0 parts "") with
    | None => log WARNING Malformed_date ;; ret dates_hours
    | Some d =>
        if negb (Datetime.weekday d =? 6) then
          log WARNING Not_a_Sunday ;; ret dates_hours
        else
          match weekday_hours_of (Py.slice 1 6 parts) with
          | None => raise ValueError
          | Some weekday_hours =>
              if negb (length weekday_hours =? 5)%nat then
                log WARNING (Expected_5_workdays (length weekday_hours)) ;;
                ret dates_hours
              else ret (<[d := weekday_hours]> dates_hours)
          end
    end.

(** The loop over the lines of the file. *)
Fixpoint process_lines (dates_hours : gmap date (list Z)) (ls : list string)
  : M (gmap date (list Z)) :=
  match ls with
  | [] => ret dates_hours
  | l :: ls' => dates_hours' <- process_line dates_hours l ;; process_lines dates_hours' ls'
  end.

(** [process_csv]: [open_file infile] is what opening [infile] for reading
    gives, the lines that iterating over the file yields (each with its line
    end, if it has one) or the exception raised. *)
Definition process_csv (open_file : string -> answer (list string)) (infile : string)
  : M (gmap date (list Z)) :=
  f <- call (Open infile) (open_file infile) ;;
  process_lines ∅ f.

(** ** [run] *)

(** The fields of [args] that [run] reads. [csv] is [None] when the option
    is absent. *)
Record Args : Type := mkArgs {
  user : string;
  passwd : string;
  dryrun : bool;
  once : bool;
  csv : option string;
  exch : bool;
  list_overdue : bool
}.

(** The collaborators of [run], by what they answer: the constructor and
    the two methods of [time_reporter.Time_Reporter], the file system, the
    constructor and the method of [pyexch.PyExch]. *)
Record collaborators : Type := mkCollaborators {
  Time_Reporter : string -> string -> answer unit;
  get_overdue_weeks : answer (gset date);
  submit : date -> list Z -> answer unit;
  open_file : string -> answer (list string);
  PyExch : string -> answer unit;
  weekly_hours_worked : date -> answer (gmap date (list Z))
}.

(** [sorted(overdue)] and [sorted(overdue.keys())]: the keys in ascending
    order. *)
Definition sorted (overdue : gset date) : list date :=
  merge_sort Datetime.le (elements overdue).

(** [min(ks)]: the first least element; [None] stands for the [ValueError]
    on an empty sequence. *)
Definition min_key (ks : list date) : option date :=
  match ks with
  | [] => None
  | k :: ks' => Some (foldl (fun m x => if decide (Datetime.lt x m) then x else m) k ks')
  end.

(** [if args.csv]: the file name, when the option is present and not the
    empty string (which counts as false). *)
Definition if_truthy (o : option string) : option string :=
  match o with
  | Some s => if (Py.len s =? 0)%nat then None else Some s
  | None => None
  end.

Definition no_overdue_message : string := "You have no overdue weeks. Congratulations!".

Section Run.

Variable w : collaborators.
Variable args : Args.

(** The loop of list mode: one printed line per key. *)
Fixpoint print_dates (ks : list date) : M unit :=
  match ks with
  | [] => ret tt
  | k :: ks' => print (Format.strftime_Ybd k) ;; print_dates ks'
  end.

(** The body of the reconciliation loop for one key. *)
Definition visit (data : gmap date (list Z)) (key : date) : M unit :=
  log INFO (Overdue_date key) ;;
  match data !! key with
  | Some hours =>
      log INFO (Found_match key hours) ;;
      (if negb (dryrun args) then
         call (Submit key hours) (submit w key hours) ;;
         log INFO (Successfully_submitted key hours)
       else ret tt) ;;
      if once args then exit None else ret tt
  | None => ret tt
  end.

(** The reconciliation loop, over the keys in the order given. *)
Fixpoint walk (data : gmap date (list Z)) (keys : list date) : M unit :=
  match keys with
  | [] => ret tt
  | key :: keys' => visit data key ;; walk data keys'
  end.

(** The choice of the data source: the file, else the calendar, else the
    empty dictionary that [data] starts as. [combine(start_date, time())] is
    [start_date] at midnight. *)
Definition load_data (overdue : gset date) : M (gmap date (list Z)) :=
  match if_truthy (csv args) with
  | Some infile =>
      data <- process_csv (open_file w) infile ;;
      log DEBUG (CSV_data data) ;;
      ret data
  | None =>
      if exch args then
        call (New_PyExch (passwd args)) (PyExch w (passwd args)) ;;
        match min_key (elements overdue) with
        | None => raise ValueError
        | Some start_date =>
            call (Weekly_hours_worked start_date) (weekly_hours_worked w start_date)
        end
      else ret ∅
  end.

Definition run : M unit :=
  call (New_Time_Reporter (user args) (passwd args))
       (Time_Reporter w (user args) (passwd args)) ;;
  overdue <- call Get_overdue_weeks (get_overdue_weeks w) ;;
  if (size overdue <? 1)%nat then exit (Some no_overdue_message)
  else if list_overdue args then
    print "Overdue Dates" ;;
    print_dates (sorted overdue) ;;
    exit None
  else
    data <- load_data overdue ;;
    walk data (sorted overdue).

End Run.

(** ** The vocabulary of the properties *)

(** All characters of [s] satisfy [p]. *)
Fixpoint all (p : ascii -> bool) (s : string) : bool :=
  match s with
  | EmptyString => true
  | String c s' => p c && all p s'
  end.

(** Characters other than the comma, and other than whitespace. *)
Definition not_comma (c : ascii) : bool := negb (Ascii.eqb c ",").
Definition not_space (c : ascii) : bool := negb (Py.isspace c).

(** The number that a string of decimal digits denotes. *)
Fixpoint decimal_from (acc : Z) (s : string) : Z :=
  match s with
  | EmptyString => acc
  | String c s' => decimal_from (10 * acc + Py.digit_value c) s'
  end.
Definition decimal (s : string) : Z := decimal_from 0 s.

(** An hour field as the format of the file has it: empty, or the decimal
    digits of a non-negative integer, no more of them than [int] converts. *)
Definition hour_field (x : string) : Prop :=
  all Py.isdigit x && (Py.len x <=? Py.max_str_digits)%nat = true.

(** The hours that an hour field stands for: 8 when it is empty. *)
Definition hours_of_field (x : string) : Z :=
  if decide (x = "") then 8 else decimal x.

(** The fields of a line, and the date that its first field parses to. *)
Definition fields (l : string) : list string := Py.split "," (Py.rstrip l).
Definition line_date (l : string) : option date := Format.strptime (nth 0 (fields l) "").

(** The five ways through the body of the loop, each with the events made
    and the outcome. There is no sixth: the branch that warns of a wrong
    number of workdays is not among them. *)
Inductive line_step (dates_hours : gmap date (list Z)) (l : string)
  : M (gmap date (list Z)) → Prop :=
  | step_parts :
      length (fields l) ≠ 6%nat →
      line_step dates_hours l
        ([Log DEBUG (Processing_line (Py.rstrip l));
          Log WARNING (Expecting_6_parts (length (fields l)))], Return dates_hours)
  | step_malformed_date :
      length (fields l) = 6%nat → line_date l = None →
      line_step dates_hours l
        ([Log DEBUG (Processing_line (Py.rstrip l)); Log WARNING Malformed_date],
         Return dates_hours)
  | step_not_sunday d :
      length (fields l) = 6%nat → line_date l = Some d → Datetime.weekday d ≠ 6 →
      line_step dates_hours l
        ([Log DEBUG (Processing_line (Py.rstrip l)); Log WARNING Not_a_Sunday],
         Return dates_hours)
  | step_value_error d :
      length (fields l) = 6%nat → line_date l = Some d → Datetime.weekday d = 6 →
      weekday_hours_of (Py.slice 1 6 (fields l)) = None →
      line_step dates_hours l
        ([Log DEBUG (Processing_line (Py.rstrip l))], Raise ValueError)
  | step_insert d weekday_hours :
      length (fields l) = 6%nat → line_date l = Some d → Datetime.weekday d = 6 →
      weekday_hours_of (Py.slice 1 6 (fields l)) = Some weekday_hours →
      length weekday_hours = 5%nat →
      line_step dates_hours l
        ([Log DEBUG (Processing_line (Py.rstrip l))],
         Return (<[d := weekday_hours]> dates_hours)).

(** Every event of [process_line] is the debug record of the line or one of
    the three warnings of a skipped line. *)
Definition line_event (e : event) : Prop :=
  match e with
  | Log DEBUG (Processing_line _) => True
  | Log WARNING (Expecting_6_parts _) => True
  | Log WARNING Malformed_date => True
  | Log WARNING Not_a_Sunday => True
  | _ => False
  end.

(** A line that [process_csv] does not accept: it does not split into
    exactly 6 fields, or its date does not parse, or its date is not a
    Sunday. *)
Definition rejected (l : string) : Prop :=
  length (fields l) ≠ 6%nat
  ∨ line_date l = None
  ∨ ∃ d, line_date l = Some d ∧ Datetime.weekday d ≠ 6.

(** The line end that iterating over a text file leaves on a line. *)
Definition LF : string := String "010" "".

(** The text [date,a,b,c,d,e]. *)
Definition csv_line (date a b c d e : string) : string :=
  date +:+ "," +:+ a +:+ "," +:+ b +:+ "," +:+ c +:+ "," +:+ d +:+ "," +:+ e.

(** The calls of [reporter.submit], and the records of a match found. *)
Definition is_submit (e : event) : bool :=
  match e with Submit _ _ => true | _ => false end.

Definition is_match (e : event) : bool :=
  match e with Log INFO (Found_match _ _) => true | _ => false end.

(** The events of consulting a data source: opening the file, building
    the calendar client, asking it for the hours. *)
Definition reads_source (e : event) : bool :=
  match e with
  | Open _ | New_PyExch _ | Weekly_hours_worked _ => true
  | _ => false
  end.

(** The lines printed, in order. *)
Definition printed (t : list event) : list string :=
  omap (fun e => match e with Print s => Some s | _ => None end) t.

(** The keys that the reconciliation loop has visited, in order: each
    iteration starts by logging its key. *)
Definition visited (t : list event) : list date :=
  omap (fun e => match e with Log INFO (Overdue_date k) => Some k | _ => None end) t.

(** The two events that every run starts with. *)
Definition start (args : Args) : list event :=
  [New_Time_Reporter (user args) (passwd args); Get_overdue_weeks].

(** The six ways through [run], each with the events made and the outcome:
    one of the two calls to the reporter raises; there is no overdue week;
    list mode; the data source raises; the loop is reached. *)
Inductive run_path (w : collaborators) (args : Args) : M unit → Prop :=
  | path_reporter_raises e :
      Time_Reporter w (user args) (passwd args) = Raises e →
      run_path w args ([New_Time_Reporter (user args) (passwd args)], Raise e)
  | path_overdue_raises e :
      Time_Reporter w (user args) (passwd args) = Returns tt →
      get_overdue_weeks w = Raises e →
      run_path w args (start args, Raise e)
  | path_no_overdue overdue :
      Time_Reporter w (user args) (passwd args) = Returns tt →
      get_overdue_weeks w = Returns overdue →
      size overdue = 0%nat →
      run_path w args (start args, SystemExit (Some no_overdue_message))
  | path_list overdue :
      Time_Reporter w (user args) (passwd args) = Returns tt →
      get_overdue_weeks w = Returns overdue →
      size overdue ≠ 0%nat →
      list_overdue args = true →
      run_path w args
        (start args ++ Print "Overdue Dates"
                    :: (Print ∘ Format.strftime_Ybd <$> sorted overdue),
         SystemExit None)
  | path_data_raises overdue e :
      Time_Reporter w (user args) (passwd args) = Returns tt →
      get_overdue_weeks w = Returns overdue →
      size overdue ≠ 0%nat →
      list_overdue args = false →
      result (load_data w args overdue) = Raise e →
      run_path w args (start args ++ trace (load_data w args overdue), Raise e)
  | path_loop overdue data :
      Time_Reporter w (user args) (passwd args) = Returns tt →
      get_overdue_weeks w = Returns overdue →
      size overdue ≠ 0%nat →
      list_overdue args = false →
      result (load_data w args overdue) = Return data →
      run_path w args
        (start args ++ trace (load_data w args overdue)
                    ++ trace (walk w args data (sorted overdue)),
         result (walk w args data (sorted overdue))).

(** Collaborators that never fail, for the examples: the overdue weeks, the
    lines of every file, the answer of the calendar. *)
Definition reliable (overdue : gset date) (f : list string)
    (calendar : gmap date (list Z)) : collaborators :=
  {| Time_Reporter := fun _ _ => Returns tt;
     get_overdue_weeks := Returns overdue;
     submit := fun _ _ => Returns tt;
     open_file := fun _ => Returns f;
     PyExch := fun _ => Returns tt;
     weekly_hours_worked := fun _ => Returns calendar |}.

(** The arguments of [--csv hours.csv], with the flags given. *)
Definition csv_args (dryrun once list_overdue : bool) : Args :=
  mkArgs "user" "secret" dryrun once (Some "hours.csv") false list_overdue.

(** Overdue weeks, lines of a file and the records of these lines, for
    the examples. *)
Definition two_weeks : gset date := {[ mkDate 2023 1 8; mkDate 2023 1 1 ]}.

(** How an iteration that found a match ends. *)
Definition ending (args : Args) : outcome unit :=
  if once args then SystemExit None else Return tt.

(** The events before the loop: none is a submission, a match or a visit. *)
Definition quiet (e : event) : Prop :=
  is_submit e = false ∧ is_match e = false ∧ visited [e] = [].

Definition three_lines : list string :=
  ["2023-01-01,1,2,3,4,5" +:+ LF; "2023-01-08,,4,10,,0" +:+ LF; "2023-01-15,,,,," +:+ LF].

Definition three_weeks : gset date :=
  {[ mkDate 2023 1 15; mkDate 2022 12 25; mkDate 2023 1 8 ]}.

Definition three_records : gmap date (list Z) :=
  <[ mkDate 2023 1 15 := [8; 8; 8; 8; 8] ]>
    (<[ mkDate 2023 1 8 := [8; 4; 10; 8; 0] ]>
       {[ mkDate 2023 1 1 := [1; 2; 3; 4; 5] ]}).

(** ** [process_args] *)

Module Cli.

(** The namespace that [parser.parse_args()] returns: an option that was
    not given has its default, [None] or [False]. *)
Record Namespace : Type := mkNamespace {
  user : option string;
  pwdfile : option string;
  passwd : option string;
  dryrun : bool;
  quiet : bool;
  debug : bool;
  once : bool;
  csv : option string;
  exch : bool;
  list_overdue : bool
}.

(** What [process_args] does after parsing, in order: the call of
    [getpass.getuser], the log record of the user chosen, the opening of the
    password file, the prompt of [getpass.getpass]. *)
Inductive event : Type :=
  | Getuser
  | Log_no_user (user : string)
  | Open_pwdfile (path : string)
  | Getpass (prompt : string).

(** The prompts among the events. *)
Definition is_prompt (e : event) : bool :=
  match e with Getpass _ => true | _ => false end.

(** The environment of [process_args], by what it answers. *)
Record console : Type := mkConsole {
  getuser : answer string;
  open_pwdfile : string -> answer (list string);
  getpass : string -> answer string
}.

(** The truth value of an optional string: given and not empty. *)
Definition truthy (o : option string) : bool :=
  match o with
  | Some s => negb (Py.len s =? 0)%nat
  | None => false
  end.

(** [str(o)], as [format] renders it. *)
Definition str (o : option string) : string :=
  match o with
  | Some s => s
  | None => "None"
  end.

Definition set_user (args : Namespace) (u : string) : Namespace :=
  mkNamespace (Some u) (pwdfile args) (passwd args) (dryrun args) (quiet args)
              (debug args) (once args) (csv args) (exch args) (list_overdue args).

Definition set_passwd (args : Namespace) (p : string) : Namespace :=
  mkNamespace (user args) (pwdfile args) (Some p) (dryrun args) (quiet args)
              (debug args) (once args) (csv args) (exch args) (list_overdue args).

(** The check of the user: [getpass.getuser()] when none is given. *)
Definition check_user (env : console) (args : Namespace)
  : list event * outcome Namespace :=
  if truthy (user args) then ([], Return args)
  else match getuser env with
       | Returns u => ([Getuser; Log_no_user u], Return (set_user args u))
       | Raises e => ([Getuser], Raise e)
       end.

(** The password: the first line of the password file without its trailing
    whitespace (the loop over the file ends at its first [break]; a file
    without lines leaves [args.passwd] as it is), else the answer to the
    prompt. *)
Definition get_passwd (env : console) (args : Namespace)
  : list event * outcome Namespace :=
  match pwdfile args with
  | Some path =>
      if truthy (pwdfile args) then
        match open_pwdfile env path with
        | Returns f =>
            ([Open_pwdfile path],
             Return (match f with
                     | l :: _ => set_passwd args (Py.rstrip l)
                     | [] => args
                     end))
        | Raises e => ([Open_pwdfile path], Raise e)
        end
      else
        let prompt := "Enter passwd for '" +:+ str (user args) +:+ "':" in
        match getpass env prompt with
        | Returns p => ([Getpass prompt], Return (set_passwd args p))
        | Raises e => ([Getpass prompt], Raise e)
        end
  | None =>
      let prompt := "Enter passwd for '" +:+ str (user args) +:+ "':" in
      match getpass env prompt with
      | Returns p => ([Getpass prompt], Return (set_passwd args p))
      | Raises e => ([Getpass prompt], Raise e)
      end
  end.

(** [process_args], from the point where [parser.parse_args()] has returned
    the namespace [args]. *)
Definition process_args (env : console) (args : Namespace)
  : list event * outcome Namespace :=
  match check_user env args with
  | (t, Return args') =>
      let '(t', o) := get_passwd env args' in (t ++ t', o)
  | (t, Raise e) => (t, Raise e)
  | (t, SystemExit c) => (t, SystemExit c)
  end.

End Cli.

(** ** More vocabulary of the properties *)

(** What an hour field with an optional sign stands for: 8 when empty, the
    integer otherwise. The digits are no more than [int] converts. *)
Inductive hour_text : string → Z → Prop :=
  | hour_empty : hour_text "" 8
  | hour_digits x :
      all Py.isdigit x = true → (Py.len x <= Py.max_str_digits)%nat → x ≠ "" →
      hour_text x (decimal x)
  | hour_plus x :
      all Py.isdigit x = true → (Py.len x <= Py.max_str_digits)%nat → x ≠ "" →
      hour_text (String "+" x) (decimal x)
  | hour_minus x :
      all Py.isdigit x = true → (Py.len x <= Py.max_str_digits)%nat → x ≠ "" →
      hour_text (String "-" x) (- decimal x).

(** The submissions that are due: one for each key that has a record, with
    that record, in the order of the keys. *)
Definition due (data : gmap date (list Z)) (keys : list date) : list event :=
  omap (fun k => Submit k <$> data !! k) keys.

(** The last character of [s] is not whitespace ([s] may be empty). *)
Fixpoint no_trailing_space (s : string) : bool :=
  match s with
  | EmptyString => true
  | String c EmptyString => negb (Py.isspace c)
  | String _ s' => no_trailing_space s'
  end.

(** Collaborators as [reliable], except that [submit] raises for the
    week [bad]. *)
Definition failing_at (bad : date) (overdue : gset date) (f : list string)
  : collaborators :=
  {| Time_Reporter := fun _ _ => Returns tt;
     get_overdue_weeks := Returns overdue;
     submit := fun d _ => if decide (d = bad) then Raises (Error "SubmitError")
                          else Returns tt;
     open_file := fun _ => Returns f;
     PyExch := fun _ => Returns tt;
     weekly_hours_worked := fun _ => Returns ∅ |}.

(** The string of [n] characters [c]. *)
Fixpoint repeat_char (c : ascii) (n : nat) : string :=
  match n with
  | O => EmptyString
  | S n' => String c (repeat_char c n')
  end.

(** The format [YYYY-Mon-DD] as the specification words it: the year with
    four digits, the abbreviated month name, the day with two digits. *)
Definition YYYY_Mon_DD (d : date) : string :=
  String (Format.digit_char (year d / 1000)) (String (Format.digit_char (year d / 100))
    (String (Format.digit_char (year d / 10)) (String (Format.digit_char (year d)) "-")))
  +:+ Format.month_abbr (month d) +:+ "-"
  +:+ String (Format.digit_char (day d / 10)) (String (Format.digit_char (day d)) "").

(** The weeks of the calls of [submit], in order. *)
Definition submitted (t : list event) : list date :=
  omap (fun e => match e with Submit k _ => Some k | _ => None end) t.

(** * Properties *)

(** ** The model on concrete inputs *)

Example strptime_sunday : Format.strptime "2023-01-01" = Some (mkDate 2023 1 1).
Proof. reflexivity. Qed.
Example weekday_sunday : Datetime.weekday (mkDate 2023 1 1) = 6.
Proof. reflexivity. Qed.
Example weekday_monday : Datetime.weekday (mkDate 2026 11 2) = 0.
Proof. reflexivity. Qed.
Example strptime_short : Format.strptime "2023-1-8" = Some (mkDate 2023 1 8).
Proof. reflexivity. Qed.
Example strptime_feb30 : Format.strptime "2023-02-30" = None.
Proof. reflexivity. Qed.
Example strptime_rest : Format.strptime "2023-01-011" = None.
Proof. reflexivity. Qed.
Example strftime_ex : Format.strftime_Ybd (mkDate 2023 1 8) = "2023-Jan-08".
Proof. reflexivity. Qed.
Example int_ex : Py.int " 1_000 " = Some 1000 /\ Py.int (String (ascii_of_nat 28) "5") = None /\ Py.int "abc" = None /\ Py.int "-7" = Some (-7)
  /\ Py.int "" = None /\ Py.int "1__0" = None /\ Py.int "007" = Some 7.
Proof. repeat split; reflexivity. Qed.
Example split_ex : Py.split "," "a,,b," = ["a"; ""; "b"; ""] /\ Py.split "," "" = [""].
Proof. split; reflexivity. Qed.
Example rstrip_ex : Py.rstrip ("a, b , " +:+ LF) = "a, b ,".
Proof. reflexivity. Qed.

Example process_csv_ex :
  result (process_csv (fun _ => Returns ["2023-01-01,,4,,,8" +:+ LF; "bad"; "2023-01-02,1,2,3,4,5";
                                           "2023-01-08,1,2,3,4,5"]) "hours.csv")
  = Return (<[mkDate 2023 1 8 := [1;2;3;4;5]]> (<[mkDate 2023 1 1 := [8;4;8;8;8]]> ∅)).
Proof. reflexivity. Qed.

(** ** Strings: fields, splitting and stripping *)

Lemma all_app p x y : all p (x +:+ y) = all p x && all p y.
Proof. induction x as [|c x IH]; simpl; [done|]. by rewrite IH, andb_assoc. Qed.

Lemma all_impl (p q : ascii -> bool) s :
  (∀ c, p c = true → q c = true) → all p s = true → all q s = true.
Proof.
  intros Hpq. induction s as [|c s IH]; simpl; [done|].
  intros [Hc Hs]%andb_true_iff. by rewrite (Hpq c Hc), IH.
Qed.

Lemma isdigit_not_comma c : Py.isdigit c = true → not_comma c = true.
Proof.
  unfold not_comma. destruct (Ascii.eqb c ",") eqn:E; [|done].
  apply Ascii.eqb_eq in E as ->. done.
Qed.

Lemma isdigit_not_space c : Py.isdigit c = true → not_space c = true.
Proof.
  unfold not_space, Py.isdigit, Py.isspace. cbv zeta.
  generalize (nat_of_ascii c). intros n H.
  repeat match goal with
         | |- context [(?a <=? ?b)%nat] => destruct (Nat.leb_spec a b)
         | |- context [(?a =? ?b)%nat] => destruct (Nat.eqb_spec a b)
         | H : context [(?a <=? ?b)%nat] |- _ => destruct (Nat.leb_spec a b)
         end; simpl in *; try done; lia.
Qed.

Lemma isdigit_not_space_int c : Py.isdigit c = true → Py.isspace_int c = false.
Proof.
  unfold Py.isdigit, Py.isspace_int. cbv zeta.
  generalize (nat_of_ascii c). intros n H.
  repeat match goal with
         | |- context [(?a <=? ?b)%nat] => destruct (Nat.leb_spec a b)
         | |- context [(?a =? ?b)%nat] => destruct (Nat.eqb_spec a b)
         | H : context [(?a <=? ?b)%nat] |- _ => destruct (Nat.leb_spec a b)
         end; simpl in *; try done; lia.
Qed.

(** A part without the separator, followed by the separator: [split] cuts there. *)
Lemma split_cons x r :
  all not_comma x = true → Py.split "," (x +:+ String "," r) = x :: Py.split "," r.
Proof.
  induction x as [|c x IH]; simpl; [done|].
  intros [Hc Hx]%andb_true_iff. unfold not_comma in Hc.
  destruct (Ascii.eqb c ","); [done|]. by rewrite IH.
Qed.

Lemma split_last x : all not_comma x = true → Py.split "," x = [x].
Proof.
  induction x as [|c x IH]; simpl; [done|].
  intros [Hc Hx]%andb_true_iff. unfold not_comma in Hc.
  destruct (Ascii.eqb c ","); [done|]. by rewrite IH.
Qed.

Lemma strip_right_keep p x c y :
  p c = false →
  Py.strip_right p (x +:+ String c y) = x +:+ String c (Py.strip_right p y).
Proof.
  intros Hc. induction x as [|a x IH]; simpl.
  - destruct (Py.strip_right p y); [by rewrite Hc|done].
  - rewrite IH. by destruct x.
Qed.

Lemma strip_right_all p s : all p s = true → Py.strip_right p s = "".
Proof.
  induction s as [|c s IH]; simpl; [done|].
  intros [Hc Hs]%andb_true_iff. by rewrite IH, Hc.
Qed.

Lemma strip_right_id p s :
  all (fun c => negb (p c)) s = true → Py.strip_right p s = s.
Proof.
  induction s as [|c s IH]; simpl; [done|].
  intros [Hc Hs]%andb_true_iff. rewrite IH by done.
  destruct s; [|done]. by destruct (p c).
Qed.

Lemma strip_right_app p s t :
  all (fun c => negb (p c)) s = true → all p t = true →
  Py.strip_right p (s +:+ t) = s.
Proof.
  intros Hs Ht. induction s as [|c s IH]; simpl.
  - by apply strip_right_all.
  - simpl in Hs. apply andb_true_iff in Hs as [Hc Hs]. rewrite IH by done.
    destruct s; [|done]. by destruct (p c).
Qed.

Lemma strip_left_id p s :
  all (fun c => negb (p c)) s = true → Py.strip_left p s = s.
Proof. destruct s as [|c s]; simpl; [done|]. intros [Hc _]%andb_true_iff. by destruct (p c). Qed.

(** ** [int] on the decimal digits of a non-negative integer *)

Lemma int_digits_decimal acc prev x :
  all Py.isdigit x = true → (x ≠ "" ∨ prev = true) →
  Py.int_digits acc prev x = Some (decimal_from acc x).
Proof.
  revert acc prev. induction x as [|c x IH]; intros acc prev Hx Hne; simpl.
  - destruct Hne as [?| ->]; done.
  - simpl in Hx. apply andb_true_iff in Hx as [Hc Hx]. rewrite Hc.
    apply IH; [done|by right].
Qed.

Lemma digit_count_digits x : all Py.isdigit x = true → Py.digit_count x = Py.len x.
Proof.
  induction x as [|c x IH]; [done|]. simpl.
  intros [Hc Hx]%andb_true_iff. by rewrite Hc, IH.
Qed.

Lemma int_literal_decimal x :
  all Py.isdigit x = true → (Py.len x <= Py.max_str_digits)%nat → x ≠ "" →
  Py.int_literal x = Some (decimal x).
Proof.
  intros Hx Hlen Hne. unfold Py.int_literal.
  rewrite (digit_count_digits x Hx).
  destruct (Nat.leb_spec (Py.len x) Py.max_str_digits) as [_|?]; [|lia].
  by apply int_digits_decimal; [|left].
Qed.

Lemma int_decimal x :
  all Py.isdigit x = true → (Py.len x <= Py.max_str_digits)%nat → x ≠ "" →
  Py.int x = Some (decimal x).
Proof.
  intros Hx Hlen Hne. unfold Py.int.
  assert (Hsp : all (fun c => negb (Py.isspace_int c)) x = true).
  { eapply all_impl; [|exact Hx]. intros c Hc. by rewrite isdigit_not_space_int. }
  rewrite strip_left_id, strip_right_id by done.
  destruct x as [|c r]; [done|].
  assert (Hc : Py.isdigit c = true) by (simpl in Hx; by apply andb_true_iff in Hx as [? _]).
  destruct (Ascii.eqb c "+") eqn:E1; [apply Ascii.eqb_eq in E1 as ->; done|].
  destruct (Ascii.eqb c "-") eqn:E2; [apply Ascii.eqb_eq in E2 as ->; done|].
  by apply int_literal_decimal.
Qed.

Lemma hour_field_digits x :
  hour_field x → all Py.isdigit x = true ∧ (Py.len x <= Py.max_str_digits)%nat.
Proof.
  unfold hour_field. intros [Hx Hlen]%andb_true_iff. split; [done|].
  by apply Nat.leb_le.
Qed.

(** The hours of a list of hour fields. *)
Lemma weekday_hours_of_fields xs :
  Forall hour_field xs → weekday_hours_of xs = Some (hours_of_field <$> xs).
Proof.
  induction 1 as [|x xs Hx _ IH]; simpl; [done|].
  rewrite IH. unfold hours_of_field.
  destruct (hour_field_digits x Hx) as [Hd Hlen].
  destruct x as [|c r]; [done|].
  change (Py.len (String c r) <? 1)%nat with false. cbv iota.
  rewrite (int_decimal (String c r)) by done.
  by destruct (decide (String c r = "")).
Qed.

(** [weekday_hours_of] keeps the number of fields. *)
Lemma weekday_hours_of_length xs hs :
  weekday_hours_of xs = Some hs → length hs = length xs.
Proof.
  revert hs. induction xs as [|x xs IH]; simpl; intros hs H.
  - by inversion H.
  - destruct (if (Py.len x <? 1)%nat then Some 8 else Py.int x); simpl in H; [|done].
    destruct (weekday_hours_of xs) as [hs'|]; simpl in H; [|done].
    inversion H; subst. simpl. f_equal. by apply IH.
Qed.

(** ** The date format: a date that parses holds no comma *)

Lemma between_not_comma lo hi c :
  Format.between lo hi "," = false → Format.between lo hi c = true → not_comma c = true.
Proof.
  intros Hcomma Hc. unfold not_comma. destruct (Ascii.eqb c ",") eqn:E; [|done].
  apply Ascii.eqb_eq in E as ->. congruence.
Qed.

Lemma eqb_not_comma a c :
  Ascii.eqb a "," = false → Ascii.eqb c a = true → not_comma c = true.
Proof.
  intros Ha Hc. apply Ascii.eqb_eq in Hc as ->. unfold not_comma. by rewrite Ha.
Qed.

Ltac solve_not_comma :=
  repeat match goal with
         | H : _ && _ = true |- _ => apply andb_true_iff in H as [? ?]
         end;
  simpl; rewrite ?andb_true_iff; repeat split;
  first [ done
        | by apply isdigit_not_comma
        | by eapply between_not_comma; [|eassumption]
        | by eapply eqb_not_comma; [|eassumption] ].

Lemma directive_Y_prefix s y r :
  Format.directive_Y s = Some (y, r) → ∃ p, s = p +:+ r ∧ all not_comma p = true.
Proof.
  unfold Format.directive_Y.
  destruct s as [|a [|b [|c [|d s]]]]; try done.
  destruct (_ && _) eqn:E; [|done]. intros [= <- <-].
  exists (String a (String b (String c (String d "")))). split; [done|].
  solve_not_comma.
Qed.

Lemma directive_m_prefix s m r :
  Format.directive_m s = Some (m, r) → ∃ p, s = p +:+ r ∧ all not_comma p = true.
Proof.
  unfold Format.directive_m. destruct s as [|a s]; [done|].
  assert (Hone : (if Format.between "1" "9" a then Some (Py.digit_value a, s) else None)
                 = Some (m, r) → ∃ p, String a s = p +:+ r ∧ all not_comma p = true).
  { destruct (Format.between "1" "9" a) eqn:E; [|done]. intros [= <- <-].
    exists (String a ""). split; [done|]. solve_not_comma. }
  destruct s as [|b s]; [done|].
  destruct (Ascii.eqb a "1" && Format.between "0" "2" b) eqn:E1.
  { intros [= <- <-]. exists (String a (String b "")). split; [done|]. solve_not_comma. }
  destruct (Ascii.eqb a "0" && Format.between "1" "9" b) eqn:E2.
  { intros [= <- <-]. exists (String a (String b "")). split; [done|]. solve_not_comma. }
  done.
Qed.

Lemma directive_d_prefix s d r :
  Format.directive_d s = Some (d, r) → ∃ p, s = p +:+ r ∧ all not_comma p = true.
Proof.
  unfold Format.directive_d. destruct s as [|a s]; [done|].
  assert (Hone : (if Format.between "1" "9" a then Some (Py.digit_value a, s) else None)
                 = Some (d, r) → ∃ p, String a s = p +:+ r ∧ all not_comma p = true).
  { destruct (Format.between "1" "9" a) eqn:E; [|done]. intros [= <- <-].
    exists (String a ""). split; [done|]. solve_not_comma. }
  destruct s as [|b s]; [done|].
  destruct (Ascii.eqb a "3" && Format.between "0" "1" b) eqn:E1.
  { intros [= <- <-]. exists (String a (String b "")). split; [done|]. solve_not_comma. }
  destruct (Format.between "1" "2" a && Py.isdigit b) eqn:E2.
  { intros [= <- <-]. exists (String a (String b "")). split; [done|]. solve_not_comma. }
  destruct (Ascii.eqb a "0" && Format.between "1" "9" b) eqn:E3.
  { intros [= <- <-]. exists (String a (String b "")). split; [done|]. solve_not_comma. }
  destruct (Format.between "1" "9" a) eqn:E4; [by apply Hone|].
  destruct (Ascii.eqb a " " && Format.between "1" "9" b) eqn:E5; [|done].
  intros [= <- <-]. exists (String a (String b "")). split; [done|]. solve_not_comma.
Qed.

Lemma strptime_not_comma s d : Format.strptime s = Some d → all not_comma s = true.
Proof.
  unfold Format.strptime.
  destruct (Format.directive_Y s) as [[y r0]|] eqn:EY; [|done].
  destruct r0 as [|c0 r1]; [done|].
  destruct (Ascii.eqb c0 "-") eqn:E0; [apply Ascii.eqb_eq in E0 as ->|].
  2:{ destruct c0 as [[] [] [] [] [] [] [] []]; done. }
  destruct (Format.directive_m r1) as [[m r2]|] eqn:Em; [|done].
  destruct r2 as [|c1 r3]; [done|].
  destruct (Ascii.eqb c1 "-") eqn:E1; [apply Ascii.eqb_eq in E1 as ->|].
  2:{ destruct c1 as [[] [] [] [] [] [] [] []]; done. }
  destruct (Format.directive_d r3) as [[dd r4]|] eqn:Ed; [|done].
  destruct r4; [|done]. intros _.
  apply directive_Y_prefix in EY as (p0 & -> & H0).
  apply directive_m_prefix in Em as (p1 & -> & H1).
  apply directive_d_prefix in Ed as (p2 & -> & H2).
  repeat (rewrite !all_app; simpl).
  by rewrite H0, H1, H2.
Qed.

(** ** The monad *)

Lemma trace_bind {A B} (m : M A) (k : A -> M B) :
  trace (bind m k)
  = trace m ++ match result m with Return a => trace (k a) | _ => [] end.
Proof.
  unfold bind, trace, result. destruct (snd m); simpl; [done| |]; by rewrite app_nil_r.
Qed.

Lemma result_bind {A B} (m : M A) (k : A -> M B) :
  result (bind m k)
  = match result m with
    | Return a => result (k a)
    | Raise e => Raise e
    | SystemExit c => SystemExit c
    end.
Proof. unfold bind, result. by destruct (snd m). Qed.

Lemma M_eta {A} (m : M A) : m = (trace m, result m).
Proof. by destruct m. Qed.

(** ** [process_csv]: what one line does *)

Lemma slice_1_6_length {A} (parts : list A) :
  length parts = 6%nat → length (Py.slice 1 6 parts) = 5%nat.
Proof. intros H. unfold Py.slice. rewrite length_take, length_drop. lia. Qed.

Lemma process_line_step dates_hours l : line_step dates_hours l (process_line dates_hours l).
Proof.
  unfold process_line. cbv zeta. fold (fields l).
  destruct (Nat.eqb_spec (length (fields l)) 6) as [Hlen|Hlen]; simpl.
  2:{ by apply step_parts. }
  fold (line_date l). destruct (line_date l) as [d|] eqn:Hd; simpl.
  2:{ by apply step_malformed_date. }
  destruct (Z.eqb_spec (Datetime.weekday d) 6) as [Hwd|Hwd]; simpl.
  2:{ by eapply step_not_sunday. }
  destruct (weekday_hours_of (Py.slice 1 6 (fields l))) as [wh|] eqn:Hwh; simpl.
  2:{ by eapply step_value_error. }
  assert (Hfive : length wh = 5%nat).
  { rewrite (weekday_hours_of_length _ _ Hwh). by apply slice_1_6_length. }
  rewrite Hfive. simpl. by eapply step_insert.
Qed.

Lemma process_line_events dates_hours l :
  Forall line_event (trace (process_line dates_hours l)).
Proof. destruct (process_line_step dates_hours l); simpl; by repeat constructor. Qed.

Lemma process_lines_events ls : ∀ dates_hours,
  Forall line_event (trace (process_lines dates_hours ls)).
Proof.
  induction ls as [|l ls IH]; intros m; simpl; [by constructor|].
  rewrite trace_bind. apply Forall_app. split; [apply process_line_events|].
  destruct (result (process_line m l)); [apply IH|constructor|constructor].
Qed.

Lemma process_csv_events open_file infile :
  Forall (fun e => e = Open infile ∨ line_event e) (trace (process_csv open_file infile)).
Proof.
  unfold process_csv, call. rewrite !trace_bind. simpl.
  constructor; [by left|].
  destruct (open_file infile) as [f|e]; simpl; [|constructor].
  eapply Forall_impl; [apply process_lines_events|]. by right.
Qed.

(** C10. The check of the number of workdays in [process_csv] never fires:
    whenever a line splits into exactly 6 parts and the hours of parts 2 to
    6 are computed, there are exactly 5 of them; hence no run of
    [process_csv], on any file, logs the warning of that check. *)
Theorem workdays_check_unreachable :
  (∀ parts weekday_hours,
     length parts = 6%nat →
     weekday_hours_of (Py.slice 1 6 parts) = Some weekday_hours →
     length weekday_hours = 5%nat)
  ∧ (∀ open_file infile n,
       Log WARNING (Expected_5_workdays n) ∉ trace (process_csv open_file infile)).
Proof.
  split.
  - intros parts wh Hlen Hwh.
    rewrite (weekday_hours_of_length _ _ Hwh). by apply slice_1_6_length.
  - intros open_file infile n Hin.
    pose proof (process_csv_events open_file infile) as Hall.
    rewrite Forall_forall in Hall. by destruct (Hall _ Hin).
Qed.

Lemma workdays_check_unreachable_witness :
  length (Py.split "," "2023-01-01,1,,3,,5") = 6%nat
  ∧ weekday_hours_of (Py.slice 1 6 (Py.split "," "2023-01-01,1,,3,,5")) = Some [1; 8; 3; 8; 5]
  ∧ length [1; 8; 3; 8; 5] = 5%nat.
Proof.
  split; [reflexivity|]. split; [reflexivity|].
  apply (proj1 workdays_check_unreachable (Py.split "," "2023-01-01,1,,3,,5"));
    reflexivity.
Defined.

(** ** [process_csv]: the loop over the lines *)

Lemma bind_assoc {A B C} (m : M A) (f : A -> M B) (g : B -> M C) :
  bind (bind m f) g = bind m (fun a => bind (f a) g).
Proof.
  destruct m as [t [a|e|c]]; unfold bind; simpl; [|done|done].
  destruct (f a) as [t' [b|e|c]]; simpl; [|done|done].
  by rewrite app_assoc.
Qed.

Lemma bind_ret_l {A B} (a : A) (k : A -> M B) : bind (ret a) k = k a.
Proof. unfold bind, ret. simpl. by destruct (k a). Qed.

Lemma bind_ext {A B} (m : M A) (f g : A -> M B) :
  (∀ a, f a = g a) → bind m f = bind m g.
Proof. intros H. unfold bind. destruct (snd m); [by rewrite H|done|done]. Qed.

Lemma process_lines_app xs ys dates_hours :
  process_lines dates_hours (xs ++ ys)
  = bind (process_lines dates_hours xs) (fun m => process_lines m ys).
Proof.
  revert dates_hours. induction xs as [|x xs IH]; intros m; simpl.
  - by rewrite bind_ret_l.
  - rewrite bind_assoc. apply bind_ext. intros m'. apply IH.
Qed.

Lemma process_line_rejected dates_hours l :
  rejected l → result (process_line dates_hours l) = Return dates_hours.
Proof.
  intros Hrej. destruct (process_line_step dates_hours l); try done.
  - destruct Hrej as [?|[?|(d' & ? & ?)]]; [done|congruence|congruence].
  - destruct Hrej as [?|[?|(d' & ? & ?)]]; [done|congruence|congruence].
Qed.

Lemma process_lines_skip dates_hours pre l post :
  rejected l →
  result (process_lines dates_hours (pre ++ l :: post))
  = result (process_lines dates_hours (pre ++ post)).
Proof.
  intros Hrej. rewrite !process_lines_app, !result_bind.
  destruct (result (process_lines dates_hours pre)) as [m| |]; [|done|done].
  simpl. rewrite result_bind. by rewrite process_line_rejected.
Qed.

Lemma process_line_keys (P : date → Prop) dates_hours l m :
  (∀ k, k ∈ dom dates_hours → P k) →
  (∀ d, line_date l = Some d → Datetime.weekday d = 6 → P d) →
  result (process_line dates_hours l) = Return m →
  ∀ k, k ∈ dom m → P k.
Proof.
  intros Hm Hd. destruct (process_line_step dates_hours l); simpl;
    intros [= <-]; try done.
  intros k. rewrite dom_insert_L, elem_of_union, elem_of_singleton.
  intros [->|?]; auto.
Qed.

Lemma process_lines_sunday ls : ∀ dates_hours m,
  (∀ k, k ∈ dom dates_hours → Datetime.weekday k = 6) →
  result (process_lines dates_hours ls) = Return m →
  ∀ k, k ∈ dom m → Datetime.weekday k = 6.
Proof.
  induction ls as [|l ls IH]; intros m0 m Hm0; simpl.
  - by intros [= <-].
  - rewrite result_bind.
    destruct (result (process_line m0 l)) as [m1| |] eqn:Hl; [|done|done].
    apply IH. eapply process_line_keys; [exact Hm0| |exact Hl]. done.
Qed.

Lemma process_csv_result open_file infile f :
  open_file infile = Returns f →
  process_csv open_file infile
  = (Open infile :: trace (process_lines ∅ f), result (process_lines ∅ f)).
Proof.
  intros Hf. unfold process_csv, call. rewrite Hf. simpl.
  unfold bind. simpl. by destruct (process_lines ∅ f).
Qed.

Lemma process_csv_returns open_file infile m :
  result (process_csv open_file infile) = Return m →
  ∃ f, open_file infile = Returns f ∧ result (process_lines ∅ f) = Return m.
Proof.
  destruct (open_file infile) as [f|e] eqn:Hf.
  - rewrite (process_csv_result _ _ f Hf). eauto.
  - unfold process_csv, call. rewrite Hf. done.
Qed.

(** C7. A line that does not split into exactly 6 fields, or whose date does
    not parse, or whose date is not a Sunday, leaves the dictionary as it
    is, and the lines after it are processed as if it were not there: the
    file with the line and the file without it give the same result. Every
    key of a returned dictionary is a Sunday, and a file without lines gives
    the empty dictionary. *)
Theorem rejected_lines_are_skipped :
  (∀ dates_hours l,
     rejected l → result (process_line dates_hours l) = Return dates_hours)
  ∧ (∀ open_file open_file' infile pre l post,
       rejected l →
       open_file infile = Returns (pre ++ l :: post) →
       open_file' infile = Returns (pre ++ post) →
       result (process_csv open_file infile) = result (process_csv open_file' infile))
  ∧ (∀ open_file infile data k,
       result (process_csv open_file infile) = Return data →
       k ∈ dom data → Datetime.weekday k = 6)
  ∧ (∀ open_file infile,
       open_file infile = Returns [] →
       process_csv open_file infile = ([Open infile], Return ∅)).
Proof.
  split; [exact process_line_rejected|]. split; [|split].
  - intros open_file open_file' infile pre l post Hrej Hf Hf'.
    rewrite (process_csv_result _ _ _ Hf), (process_csv_result _ _ _ Hf').
    by apply process_lines_skip.
  - intros open_file infile data k (f & _ & Hres)%process_csv_returns.
    eapply process_lines_sunday; [|exact Hres]. intros k'. by rewrite dom_empty_L.
  - intros open_file infile Hf. by rewrite (process_csv_result _ _ _ Hf).
Qed.

Lemma rejected_lines_are_skipped_witness :
  rejected "2023-01-02,1,2,3,4,5"
  ∧ result (process_csv (fun _ => Returns ["2023-01-01,,,,," +:+ LF; "2023-01-02,1,2,3,4,5"; "2023-01-08,1,2,3,4,5"]) "hours.csv")
    = result (process_csv (fun _ => Returns ["2023-01-01,,,,," +:+ LF; "2023-01-08,1,2,3,4,5"]) "hours.csv")
  ∧ Datetime.weekday (mkDate 2023 1 8) = 6
  ∧ process_csv (fun _ => Returns []) "hours.csv" = ([Open "hours.csv"], Return ∅).
Proof.
  assert (Hrej : rejected "2023-01-02,1,2,3,4,5").
  { right. right. exists (mkDate 2023 1 2). split; [reflexivity|]. vm_compute. discriminate. }
  destruct rejected_lines_are_skipped as (_ & Hskip & Hsunday & Hempty).
  split; [exact Hrej|]. split; [|split].
  - apply (Hskip _ _ "hours.csv" ["2023-01-01,,,,," +:+ LF] "2023-01-02,1,2,3,4,5"
             ["2023-01-08,1,2,3,4,5"] Hrej); reflexivity.
  - apply (Hsunday (fun _ => Returns ["2023-01-08,1,2,3,4,5"]) "hours.csv"
             {[ mkDate 2023 1 8 := [1; 2; 3; 4; 5] ]}); [reflexivity|].
    vm_compute. reflexivity.
  - apply Hempty. reflexivity.
Defined.

(** C2. A line with 6 fields and a Sunday date, one of whose hour fields is
    neither empty nor an integer, is not skipped: [int] raises [ValueError],
    nothing catches it, and [process_csv] ends there. On the file below the
    second line is never read and no dictionary is returned, where skipping
    the first line would have returned the week of 2023-01-08. *)
Theorem non_integer_hour_ends_process_csv :
  process_csv (fun _ => Returns ["2023-01-01,abc,8,8,8,8" +:+ LF; "2023-01-08,8,8,8,8,8" +:+ LF])
              "hours.csv"
  = ([Open "hours.csv"; Log DEBUG (Processing_line "2023-01-01,abc,8,8,8,8")],
     Raise ValueError)
  ∧ result (process_csv (fun _ => Returns ["2023-01-08,8,8,8,8,8" +:+ LF]) "hours.csv")
    = Return {[ mkDate 2023 1 8 := [8; 8; 8; 8; 8] ]}.
Proof. split; reflexivity. Qed.

(** ** [process_csv]: a line of the documented form *)

Lemma append_assoc (x y z : string) : (x +:+ y) +:+ z = x +:+ (y +:+ z).
Proof. induction x as [|c x IH]; [done|]. exact (f_equal (String c) IH). Qed.

Lemma comma_append (x : string) : "," +:+ x = String "," x.
Proof. reflexivity. Qed.

Lemma digits_not_comma x : all Py.isdigit x = true → all not_comma x = true.
Proof. apply all_impl, isdigit_not_comma. Qed.

Lemma digits_not_space x :
  all Py.isdigit x = true → all (fun c => negb (Py.isspace c)) x = true.
Proof. apply all_impl, isdigit_not_space. Qed.

Lemma hour_field_not_comma x : hour_field x → all not_comma x = true.
Proof. intros [Hx _]%hour_field_digits. by apply digits_not_comma. Qed.

Lemma hour_field_not_space x : hour_field x → all (fun c => negb (Py.isspace c)) x = true.
Proof. intros [Hx _]%hour_field_digits. by apply digits_not_space. Qed.

Lemma fields_csv_line date a b c d e eol dt :
  Format.strptime date = Some dt →
  hour_field a → hour_field b → hour_field c → hour_field d → hour_field e →
  all Py.isspace eol = true →
  Py.rstrip (csv_line date a b c d e +:+ eol) = csv_line date a b c d e
  ∧ fields (csv_line date a b c d e +:+ eol) = [date; a; b; c; d; e].
Proof.
  intros Hdate Ha Hb Hc Hd He Heol.
  assert (Hstrip : Py.rstrip (csv_line date a b c d e +:+ eol) = csv_line date a b c d e).
  { unfold Py.rstrip, csv_line. rewrite !append_assoc, !comma_append.
    rewrite !strip_right_keep by done.
    by rewrite strip_right_app by auto using hour_field_not_space. }
  split; [done|]. unfold fields. rewrite Hstrip. unfold csv_line.
  rewrite !comma_append.
  rewrite !split_cons by eauto using hour_field_not_comma, strptime_not_comma.
  by rewrite split_last by auto using hour_field_not_comma.
Qed.

Lemma process_line_csv_line dates_hours date a b c d e eol dt :
  Format.strptime date = Some dt → Datetime.weekday dt = 6 →
  hour_field a → hour_field b → hour_field c → hour_field d → hour_field e →
  all Py.isspace eol = true →
  process_line dates_hours (csv_line date a b c d e +:+ eol)
  = ([Log DEBUG (Processing_line (csv_line date a b c d e))],
     Return (<[dt := hours_of_field <$> [a; b; c; d; e]]> dates_hours)).
Proof.
  intros Hdate Hwd Ha Hb Hc Hd He Heol.
  destruct (fields_csv_line date a b c d e eol dt) as [Hstrip Hfields]; try done.
  assert (Hhours : weekday_hours_of [a; b; c; d; e] = Some (hours_of_field <$> [a; b; c; d; e])).
  { apply weekday_hours_of_fields. by repeat constructor. }
  destruct (process_line_step dates_hours (csv_line date a b c d e +:+ eol))
    as [Hlen|_ Hnone|d' _ Hsome Hnot|d' _ _ _ Hraise|d' wh _ Hsome _ Hwh _];
    unfold line_date in *; rewrite ?Hfields, ?Hstrip in *; simpl in *.
  - done.
  - congruence.
  - congruence.
  - unfold Py.slice in Hraise. simpl in Hraise. congruence.
  - unfold Py.slice in Hwh. simpl in Hwh. congruence.
Qed.

Lemma process_lines_lookup_other k ls : ∀ dates_hours m,
  (∀ l, l ∈ ls → line_date l ≠ Some k) →
  result (process_lines dates_hours ls) = Return m →
  m !! k = dates_hours !! k.
Proof.
  induction ls as [|l ls IH]; intros m0 m Hls; simpl.
  - by intros [= <-].
  - rewrite result_bind.
    destruct (result (process_line m0 l)) as [m1| |] eqn:Hl; [|done|done].
    intros Hres. rewrite (IH m1 m); [|intros; apply Hls; by right|done].
    assert (Hne : line_date l ≠ Some k) by (apply Hls; by left).
    destruct (process_line_step m0 l); simpl in Hl; simplify_eq; try done.
    apply lookup_insert_ne. congruence.
Qed.

(** C1, as the code has it. Let [l] be a line [date,a,b,c,d,e], with or
    without a line end, whose date field parses to a Sunday [dt] and whose
    hour fields are each empty or the digits of a non-negative integer, at
    most 4300 of them (what [int] converts). Then the body of the loop
    always stores for [dt] the five hours, 8 for an empty field and the
    integer otherwise. So a file that ends with [l] maps [dt] to these
    hours when the lines before [l] are processed to the end, and so does
    any file that holds [l] when [process_csv] returns and no later line
    has the same date. *)
Theorem valid_line_is_stored date a b c d e eol dt :
  Format.strptime date = Some dt → Datetime.weekday dt = 6 →
  hour_field a → hour_field b → hour_field c → hour_field d → hour_field e →
  all Py.isspace eol = true →
  let l := csv_line date a b c d e +:+ eol in
  let hours := hours_of_field <$> [a; b; c; d; e] in
  (∀ dates_hours,
     result (process_line dates_hours l) = Return (<[dt := hours]> dates_hours))
  ∧ (∀ open_file infile pre dates_hours,
       open_file infile = Returns (pre ++ [l]) →
       result (process_lines ∅ pre) = Return dates_hours →
       result (process_csv open_file infile) = Return (<[dt := hours]> dates_hours))
  ∧ (∀ open_file infile pre post data,
       open_file infile = Returns (pre ++ l :: post) →
       result (process_csv open_file infile) = Return data →
       (∀ l', l' ∈ post → line_date l' ≠ Some dt) →
       data !! dt = Some hours).
Proof.
  intros Hdate Hwd Ha Hb Hc Hd He Heol l hours.
  assert (Hline : ∀ m, process_line m l
                       = ([Log DEBUG (Processing_line (csv_line date a b c d e))],
                          Return (<[dt := hours]> m))).
  { intros m. by apply process_line_csv_line. }
  split; [|split].
  - intros m. by rewrite Hline.
  - intros open_file infile pre m0 Hf Hpre.
    rewrite (process_csv_result _ _ _ Hf), process_lines_app, result_bind, Hpre.
    simpl. by rewrite result_bind, Hline.
  - intros open_file infile pre post data Hf Hres Hpost.
    rewrite (process_csv_result _ _ _ Hf) in Hres. simpl in Hres.
    rewrite process_lines_app, result_bind in Hres.
    destruct (result (process_lines ∅ pre)) as [m0| |]; [|done|done].
    simpl in Hres. rewrite result_bind, Hline in Hres. simpl in Hres.
    rewrite (process_lines_lookup_other dt post _ data Hpost Hres).
    apply lookup_insert_eq.
Qed.

Lemma valid_line_is_stored_witness :
  result (process_line ∅ ("2023-01-08,,4,10,,0" +:+ LF))
  = Return {[ mkDate 2023 1 8 := [8; 4; 10; 8; 0] ]}
  ∧ result (process_csv (fun _ => Returns ["2023-01-01,1,2,3,4,5" +:+ LF;
                                           "2023-01-08,,4,10,,0" +:+ LF;
                                           "2023-01-15,,,,," +:+ LF]) "hours.csv")
    = Return (<[ mkDate 2023 1 15 := [8; 8; 8; 8; 8] ]>
               (<[ mkDate 2023 1 8 := [8; 4; 10; 8; 0] ]>
                  {[ mkDate 2023 1 1 := [1; 2; 3; 4; 5] ]}))
  ∧ (<[ mkDate 2023 1 15 := [8; 8; 8; 8; 8] ]>
       (<[ mkDate 2023 1 8 := [8; 4; 10; 8; 0] ]>
          {[ mkDate 2023 1 1 := [1; 2; 3; 4; 5] ]}) : gmap date (list Z))
    !! mkDate 2023 1 8 = Some [8; 4; 10; 8; 0].
Proof.
  destruct (valid_line_is_stored "2023-01-08" "" "4" "10" "" "0" LF (mkDate 2023 1 8))
    as (Hline & _ & Hfile); try reflexivity.
  split; [exact (Hline ∅)|]. split; [reflexivity|].
  apply (Hfile (fun _ => Returns ["2023-01-01,1,2,3,4,5" +:+ LF;
                                  "2023-01-08,,4,10,,0" +:+ LF;
                                  "2023-01-15,,,,," +:+ LF]) "hours.csv"
               ["2023-01-01,1,2,3,4,5" +:+ LF] ["2023-01-15,,,,," +:+ LF]);
    [reflexivity|reflexivity|].
  intros l' Hl'. apply list_elem_of_singleton in Hl' as ->. vm_compute. discriminate.
Defined.

(** ** The order of dates and [sorted] *)

Global Instance date_le_total : Total Datetime.le.
Proof. intros [y1 m1 d1] [y2 m2 d2]. unfold Datetime.le. simpl. lia. Qed.

Global Instance date_le_trans : Transitive Datetime.le.
Proof. intros [y1 m1 d1] [y2 m2 d2] [y3 m3 d3]. unfold Datetime.le. simpl. lia. Qed.

Global Instance date_le_antisymm : AntiSymm (=) Datetime.le.
Proof.
  intros [y1 m1 d1] [y2 m2 d2]. unfold Datetime.le. simpl. intros H1 H2.
  f_equal; lia.
Qed.

Lemma date_lt_asymm a b : Datetime.lt a b → Datetime.lt b a → False.
Proof. intros [Hab Hne] [Hba _]. apply Hne. by apply (anti_symm Datetime.le). Qed.

Lemma sorted_Permutation overdue : sorted overdue ≡ₚ elements overdue.
Proof. apply merge_sort_Permutation. Qed.

Lemma elem_of_sorted overdue k : k ∈ sorted overdue ↔ k ∈ overdue.
Proof. by rewrite sorted_Permutation, elem_of_elements. Qed.

Lemma NoDup_sorted overdue : NoDup (sorted overdue).
Proof. rewrite sorted_Permutation. apply NoDup_elements. Qed.

Lemma StronglySorted_le_lt (l : list date) :
  NoDup l → StronglySorted Datetime.le l → StronglySorted Datetime.lt l.
Proof.
  induction l as [|x l IH]; [constructor|].
  rewrite NoDup_cons, !StronglySorted_cons, !Forall_forall.
  intros [Hx Hl] [Hle Hs]. split; [|by apply IH].
  intros y Hy. split; [by apply Hle|]. by intros ->.
Qed.

(** [sorted(overdue)] lists the keys in strictly ascending order. *)
Lemma sorted_ascending overdue : StronglySorted Datetime.lt (sorted overdue).
Proof.
  apply StronglySorted_le_lt; [apply NoDup_sorted|].
  apply StronglySorted_merge_sort; apply _.
Qed.

Lemma sorted_nonempty overdue : (size overdue <? 1)%nat = false → sorted overdue ≠ [].
Proof.
  intros Hsize Hnil. apply Nat.ltb_ge in Hsize.
  assert (Hlen : length (sorted overdue) = size overdue).
  { by rewrite sorted_Permutation. }
  rewrite Hnil in Hlen. simpl in Hlen. lia.
Qed.

(** ** [run]: the ways through it *)

Lemma print_dates_eq ks :
  print_dates ks = (Print ∘ Format.strftime_Ybd <$> ks, Return tt).
Proof.
  induction ks as [|k ks IH]; [done|]. simpl. rewrite IH. done.
Qed.

Lemma process_lines_no_exit ls : ∀ dates_hours c,
  result (process_lines dates_hours ls) ≠ SystemExit c.
Proof.
  induction ls as [|l ls IH]; intros m c; simpl; [done|].
  rewrite result_bind.
  destruct (process_line_step m l); simpl; try done; apply IH.
Qed.

Lemma load_data_no_exit w args overdue c :
  result (load_data w args overdue) ≠ SystemExit c.
Proof.
  unfold load_data. destruct (if_truthy (csv args)) as [infile|].
  - rewrite result_bind.
    destruct (open_file w infile) as [f|e] eqn:Hf.
    + rewrite (process_csv_result _ _ _ Hf). simpl.
      pose proof (process_lines_no_exit f ∅) as Hno.
      destruct (result (process_lines ∅ f)); [done|done|]. by destruct (Hno code).
    + unfold process_csv, call. rewrite Hf. done.
  - destruct (exch args); [|done].
    unfold call. destruct (PyExch w (passwd args)) as [[]|e]; [|done].
    destruct (min_key (elements overdue)) as [s|]; [|done].
    by destruct (weekly_hours_worked w s).
Qed.

Lemma run_path_run w args : run_path w args (run w args).
Proof.
  unfold run, call.
  destruct (Time_Reporter w (user args) (passwd args)) as [[]|e] eqn:Hr.
  2:{ by apply path_reporter_raises. }
  destruct (get_overdue_weeks w) as [overdue|e] eqn:Ho.
  2:{ by apply path_overdue_raises. }
  cbn [bind emit ret fst snd app].
  destruct (Nat.ltb_spec (size overdue) 1) as [Hsize|Hsize].
  { eapply path_no_overdue; [done|done|lia]. }
  destruct (list_overdue args) eqn:Hlist.
  { rewrite print_dates_eq. unfold bind, print, emit, exit. cbn [fst snd app].
    rewrite app_nil_r. eapply path_list; [done|done|lia|done]. }
  rewrite (M_eta (load_data w args overdue)).
  destruct (result (load_data w args overdue)) as [data|e|c] eqn:Hd.
  - unfold bind at 1. cbn [fst snd].
    rewrite (M_eta (walk w args data (sorted overdue))). cbn [fst snd].
    eapply path_loop; [done|done|lia|done|done].
  - unfold bind at 1. cbn [fst snd]. eapply path_data_raises; [done|done|lia|done|done].
  - by destruct (load_data_no_exit w args overdue c).
Qed.

(** ** [run]: the terminal paths before the loop *)

Lemma start_silent args :
  Forall (fun e => reads_source e = false ∧ is_submit e = false) (start args).
Proof. by repeat constructor. Qed.

Lemma run_no_overdue w args overdue :
  Time_Reporter w (user args) (passwd args) = Returns tt →
  get_overdue_weeks w = Returns overdue →
  size overdue = 0%nat →
  run w args = (start args, SystemExit (Some no_overdue_message)).
Proof.
  intros Hr Ho Hsize.
  destruct (run_path_run w args); try congruence; simplify_eq; done.
Qed.

(** C1, as stated, fails: an hour field of 4301 digits is the text of a
    non-negative integer, yet [int] raises [ValueError] on it and
    [process_csv] stores nothing. *)
Lemma long_hour_field_raises :
  all Py.isdigit (repeat_char "1" 4301) = true
  ∧ Format.strptime "2023-01-01" = Some (mkDate 2023 1 1)
  ∧ Datetime.weekday (mkDate 2023 1 1) = 6
  ∧ process_csv (fun _ => Returns [csv_line "2023-01-01" (repeat_char "1" 4301) "" "" "" ""
                                   +:+ LF]) "hours.csv"
    = ([Open "hours.csv";
        Log DEBUG (Processing_line (csv_line "2023-01-01" (repeat_char "1" 4301) "" "" "" ""))],
       Raise ValueError).
Proof.
  split; [vm_compute; reflexivity|]. split; [reflexivity|]. split; [reflexivity|].
  vm_compute. reflexivity.
Qed.

(** The end of a run without overdue weeks. When [get_overdue_weeks]
    returns no week, the run makes no event after that call: it raises
    [SystemExit] with the message of no overdue weeks. No data source is
    consulted and nothing is submitted. The exit status of this end is 1, as
    the argument of [SystemExit] is a string. *)
Theorem no_overdue_terminal w args :
  Time_Reporter w (user args) (passwd args) = Returns tt →
  get_overdue_weeks w = Returns ∅ →
  run w args = (start args, SystemExit (Some no_overdue_message))
  ∧ Forall (fun e => reads_source e = false ∧ is_submit e = false) (trace (run w args))
  ∧ exit_status (result (run w args)) = 1.
Proof.
  intros Hr Ho.
  rewrite (run_no_overdue w args ∅ Hr Ho (size_empty (C:=gset date))).
  split; [done|]. split; [apply start_silent|done].
Qed.

Lemma no_overdue_terminal_witness :
  run (reliable ∅ ["2023-01-01,,,,,"] ∅) (csv_args false false false)
  = ([New_Time_Reporter "user" "secret"; Get_overdue_weeks],
     SystemExit (Some "You have no overdue weeks. Congratulations!")).
Proof.
  apply (no_overdue_terminal (reliable ∅ ["2023-01-01,,,,,"] ∅) (csv_args false false false));
    reflexivity.
Defined.

(** C3. The code at a run without overdue weeks: the run ends at once and
    consults nothing, as the claim says, but not with success: [SystemExit]
    carries the message, so the exit status is 1 and not 0, where the ends
    of list mode and of once mode raise [SystemExit] without an argument. *)
Lemma no_overdue_is_not_success :
  get_overdue_weeks (reliable ∅ ["2023-01-01,,,,,"] ∅) = Returns ∅
  ∧ result (run (reliable ∅ ["2023-01-01,,,,,"] ∅) (csv_args false false false))
    = SystemExit (Some "You have no overdue weeks. Congratulations!")
  ∧ exit_status (result (run (reliable ∅ ["2023-01-01,,,,,"] ∅) (csv_args false false false)))
    ≠ 0.
Proof. split; [reflexivity|]. split; [reflexivity|]. vm_compute. discriminate. Qed.

(** C9. With no overdue week and list mode set, the run ends as with no
    overdue week, with that message, and prints nothing: the test for no
    overdue weeks comes before the test for list mode. *)
Theorem no_overdue_before_list_mode w args :
  Time_Reporter w (user args) (passwd args) = Returns tt →
  get_overdue_weeks w = Returns ∅ →
  list_overdue args = true →
  run w args = (start args, SystemExit (Some no_overdue_message))
  ∧ printed (trace (run w args)) = [].
Proof.
  intros Hr Ho _.
  by rewrite (run_no_overdue w args ∅ Hr Ho (size_empty (C:=gset date))).
Qed.

Lemma no_overdue_before_list_mode_witness :
  run (reliable ∅ [] ∅) (csv_args false false true)
  = ([New_Time_Reporter "user" "secret"; Get_overdue_weeks],
     SystemExit (Some "You have no overdue weeks. Congratulations!"))
  ∧ printed (trace (run (reliable ∅ [] ∅) (csv_args false false true))) = [].
Proof.
  apply (no_overdue_before_list_mode (reliable ∅ [] ∅) (csv_args false false true));
    reflexivity.
Defined.

Lemma printed_dates ks :
  printed (Print ∘ Format.strftime_Ybd <$> ks) = Format.strftime_Ybd <$> ks.
Proof. induction ks as [|k ks IH]; [done|]. cbn. f_equal. exact IH. Qed.

Lemma dates_silent ks :
  Forall (fun e => reads_source e = false ∧ is_submit e = false)
         (Print ∘ Format.strftime_Ybd <$> ks).
Proof. induction ks; simpl; by constructor. Qed.

Lemma strip_left_keep p c s : p c = false → Py.strip_left p (String c s) = String c s.
Proof. simpl. by intros ->. Qed.

(** From the year 1000 on, [%Y-%b-%d] is the format [YYYY-Mon-DD]. *)
Lemma strftime_four_digits k :
  1000 <= year k <= 9999 → Format.strftime_Ybd k = YYYY_Mon_DD k.
Proof.
  intros Hy. unfold Format.strftime_Ybd, YYYY_Mon_DD, Format.directive_Y_out.
  assert (Hq : 1 <= year k / 1000 <= 9).
  { split; [apply Z.div_le_lower_bound; lia|].
    apply Z.lt_succ_r, Z.div_lt_upper_bound; lia. }
  assert (Hc : Ascii.eqb (Format.digit_char (year k / 1000)) "0" = false).
  { set (q := year k / 1000) in *.
    assert (Hcases : q = 1 ∨ q = 2 ∨ q = 3 ∨ q = 4 ∨ q = 5 ∨ q = 6 ∨ q = 7 ∨ q = 8 ∨ q = 9)
      by lia.
    destruct Hcases as [->|[->|[->|[->|[->|[->|[->|[->| ->]]]]]]]]; reflexivity. }
  by rewrite strip_left_keep.
Qed.

(** C8, as the code has it. In list mode, with at least one overdue week,
    the run prints the heading [Overdue Dates] and then the overdue dates,
    each once, in strictly ascending order, in the format [%Y-%b-%d], which
    is [YYYY-Mon-DD] for the years from 1000 on (a year below 1000 is
    written with fewer digits); it then raises [SystemExit] without an
    argument (exit status 0). No data source is consulted and nothing is
    submitted. *)
Theorem list_mode_terminal w args overdue :
  Time_Reporter w (user args) (passwd args) = Returns tt →
  get_overdue_weeks w = Returns overdue →
  overdue ≠ ∅ →
  list_overdue args = true →
  run w args
  = (start args ++ Print "Overdue Dates" :: (Print ∘ Format.strftime_Ybd <$> sorted overdue),
     SystemExit None)
  ∧ printed (trace (run w args)) = "Overdue Dates" :: (Format.strftime_Ybd <$> sorted overdue)
  ∧ StronglySorted Datetime.lt (sorted overdue)
  ∧ (∀ k, k ∈ sorted overdue ↔ k ∈ overdue)
  ∧ (∀ k, 1000 <= year k <= 9999 → Format.strftime_Ybd k = YYYY_Mon_DD k)
  ∧ Forall (fun e => reads_source e = false ∧ is_submit e = false) (trace (run w args))
  ∧ exit_status (result (run w args)) = 0.
Proof.
  intros Hr Ho Hne Hlist.
  assert (Hsize : size overdue ≠ 0%nat).
  { rewrite size_non_empty_iff. by intros ?%leibniz_equiv. }
  assert (Hrun : run w args
    = (start args ++ Print "Overdue Dates" :: (Print ∘ Format.strftime_Ybd <$> sorted overdue),
       SystemExit None)).
  { destruct (run_path_run w args); try congruence; simplify_eq; done. }
  rewrite Hrun. split; [done|]. split; [|split; [|split; [|split; [|split]]]].
  - simpl. by rewrite printed_dates.
  - apply sorted_ascending.
  - apply elem_of_sorted.
  - apply strftime_four_digits.
  - simpl. repeat (constructor; [done|]). apply dates_silent.
  - done.
Qed.

Lemma list_mode_terminal_witness :
  run (reliable two_weeks [] ∅) (csv_args false false true)
  = ([New_Time_Reporter "user" "secret"; Get_overdue_weeks;
      Print "Overdue Dates"; Print "2023-Jan-01"; Print "2023-Jan-08"],
     SystemExit None).
Proof.
  destruct (list_mode_terminal (reliable two_weeks [] ∅) (csv_args false false true) two_weeks)
    as [Hrun _]; [reflexivity|reflexivity|by vm_compute|reflexivity|].
  rewrite Hrun. vm_compute. reflexivity.
Defined.

(** C8, as stated, fails: what list mode prints is not exactly the overdue
    dates, a heading comes first; and a date of the year 999 is not printed
    in the format [YYYY-Mon-DD], its year has three digits. *)
Lemma list_mode_prints_a_heading :
  printed (trace (run (reliable two_weeks [] ∅) (csv_args false false true)))
  = ["Overdue Dates"; "2023-Jan-01"; "2023-Jan-08"]
  ∧ printed (trace (run (reliable two_weeks [] ∅) (csv_args false false true)))
    ≠ Format.strftime_Ybd <$> sorted two_weeks
  ∧ printed (trace (run (reliable {[ mkDate 999 12 29 ]} [] ∅) (csv_args false false true)))
    = ["Overdue Dates"; "999-Dec-29"]
  ∧ YYYY_Mon_DD (mkDate 999 12 29) = "0999-Dec-29".
Proof.
  split; [vm_compute; reflexivity|]. split; [vm_compute; discriminate|].
  split; vm_compute; reflexivity.
Qed.

(** ** [run]: the reconciliation loop *)

Lemma visit_unfold w args data key :
  visit w args data key
  = match data !! key with
    | None => ([Log INFO (Overdue_date key)], Return tt)
    | Some hours =>
        if dryrun args then
          ([Log INFO (Overdue_date key); Log INFO (Found_match key hours)], ending args)
        else
          match submit w key hours with
          | Returns _ =>
              ([Log INFO (Overdue_date key); Log INFO (Found_match key hours);
                Submit key hours; Log INFO (Successfully_submitted key hours)],
               ending args)
          | Raises e =>
              ([Log INFO (Overdue_date key); Log INFO (Found_match key hours);
                Submit key hours], Raise e)
          end
    end.
Proof.
  unfold visit, ending, call. destruct (data !! key) as [hours|]; [|done].
  destruct (dryrun args); simpl.
  - by destruct (once args).
  - destruct (submit w key hours) as [[]|e]; [|done]. by destruct (once args).
Qed.

Lemma quiet_filter t :
  Forall quiet t →
  filter is_submit t = [] ∧ filter is_match t = [] ∧ visited t = []
  ∧ ∀ d hours, Submit d hours ∉ t.
Proof.
  induction 1 as [|e t (Hs & Hm & Hv) _ (IHs & IHm & IHv & IHn)].
  { do 3 (split; [done|]). intros d hours. apply not_elem_of_nil. }
  split; [|split; [|split]].
  - rewrite filter_cons, Hs. simpl. exact IHs.
  - rewrite filter_cons, Hm. simpl. exact IHm.
  - change (visited ([e] ++ t) = []). unfold visited in *. by rewrite omap_app, Hv, IHv.
  - intros d hours [Heq|Hin]%elem_of_cons; [by subst e|]. by apply (IHn d hours).
Qed.

Lemma line_event_quiet e : line_event e → quiet e.
Proof. destruct e as [[] []| | | | | | |]; done. Qed.

Lemma load_data_quiet w args overdue : Forall quiet (trace (load_data w args overdue)).
Proof.
  unfold load_data. destruct (if_truthy (csv args)) as [infile|].
  - rewrite trace_bind. apply Forall_app. split.
    + eapply Forall_impl; [apply process_csv_events|].
      intros e [->|He]; [done|by apply line_event_quiet].
    + destruct (result (process_csv (open_file w) infile)); [|constructor|constructor].
      by repeat constructor.
  - destruct (exch args); [|constructor].
    unfold call. destruct (PyExch w (passwd args)) as [[]|e]; [|by repeat constructor].
    destruct (min_key (elements overdue)) as [s|]; [|by repeat constructor].
    destruct (weekly_hours_worked w s); by repeat constructor.
Qed.

(** Every run is its events before the loop, none of which is a submission,
    a match or a visit, followed by the loop if it is reached. *)
Lemma run_before_loop w args :
  (Forall quiet (trace (run w args)) ∧ result (run w args) ≠ Return tt)
  ∨ (∃ overdue data t0,
       get_overdue_weeks w = Returns overdue
       ∧ result (load_data w args overdue) = Return data
       ∧ Forall quiet t0
       ∧ run w args = (t0 ++ trace (walk w args data (sorted overdue)),
                       result (walk w args data (sorted overdue)))).
Proof.
  destruct (run_path_run w args) as [e|e|overdue|overdue|overdue e|overdue data];
    simpl.
  - left. split; [by repeat constructor|done].
  - left. split; [by repeat constructor|done].
  - left. split; [by repeat constructor|done].
  - left. split; [|done].
    repeat (constructor; [done|]). induction (sorted overdue); by constructor.
  - left. split; [|done]. repeat (constructor; [done|]). apply load_data_quiet.
  - right. exists overdue, data, (start args ++ trace (load_data w args overdue)).
    split; [done|]. split; [done|]. split.
    + apply Forall_app. split; [by repeat constructor|apply load_data_quiet].
    + by rewrite <- app_assoc.
Qed.

Lemma walk_dryrun_no_submit w args data keys :
  dryrun args = true → ∀ d hours, Submit d hours ∉ trace (walk w args data keys).
Proof.
  intros Hdry d hours. induction keys as [|key keys IH]; simpl.
  - apply not_elem_of_nil.
  - rewrite trace_bind, visit_unfold, Hdry.
    destruct (data !! key) as [h|]; simpl.
    + unfold ending. destruct (once args); simpl.
      * by intros [?|[?|?%elem_of_nil]%elem_of_cons]%elem_of_cons.
      * intros [?|[?|?]%elem_of_cons]%elem_of_cons; [done|done|by apply IH].
    + intros [?|?]%elem_of_cons; [done|by apply IH].
Qed.

(** C5. In a dry run [submit] is never called, whatever the collaborators
    answer and however many overdue weeks have a record. *)
Theorem dryrun_never_submits w args :
  dryrun args = true → ∀ d hours, Submit d hours ∉ trace (run w args).
Proof.
  intros Hdry d hours.
  destruct (run_before_loop w args) as [[Hq _]|(overdue & data & t0 & _ & _ & Hq & ->)].
  - by apply quiet_filter.
  - simpl. rewrite elem_of_app. intros [Hin|Hin].
    + by apply (quiet_filter _ Hq) in Hin.
    + by apply (walk_dryrun_no_submit w args data (sorted overdue) Hdry) in Hin.
Qed.

Lemma dryrun_never_submits_witness :
  (Submit (mkDate 2023 1 8) [8; 4; 10; 8; 0]
   ∉ trace (run (reliable two_weeks three_lines ∅) (csv_args true false false)))
  ∧ filter is_match (trace (run (reliable two_weeks three_lines ∅) (csv_args true false false)))
    = [Log INFO (Found_match (mkDate 2023 1 1) [1; 2; 3; 4; 5]);
       Log INFO (Found_match (mkDate 2023 1 8) [8; 4; 10; 8; 0])].
Proof.
  split; [|by vm_compute].
  apply (dryrun_never_submits (reliable two_weeks three_lines ∅) (csv_args true false false)).
  reflexivity.
Defined.

(** The loop on keys without a record: each is visited, the loop returns. *)
Lemma walk_unmatched w args data keys :
  (∀ k, k ∈ keys → data !! k = None) →
  walk w args data keys = (Log INFO ∘ Overdue_date <$> keys, Return tt).
Proof.
  induction keys as [|key keys IH]; intros Hnone; [done|]. simpl.
  rewrite visit_unfold, (Hnone key) by (by left).
  rewrite IH by (intros; apply Hnone; by right). done.
Qed.

(** In once mode the loop ends with the first key that has a record. *)
Lemma walk_once_stops w args data pre k hours post :
  once args = true →
  (∀ k', k' ∈ pre → data !! k' = None) → data !! k = Some hours →
  walk w args data (pre ++ k :: post)
  = ((Log INFO ∘ Overdue_date <$> pre) ++ trace (visit w args data k),
     result (visit w args data k))
  ∧ result (visit w args data k) ≠ Return tt.
Proof.
  intros Honce Hpre Hk.
  assert (Hend : result (visit w args data k) ≠ Return tt).
  { rewrite visit_unfold, Hk. unfold ending. rewrite Honce.
    unfold result. destruct (dryrun args); [done|]. by destruct (submit w k hours). }
  split; [|done].
  induction pre as [|k' pre IH].
  - change (bind (visit w args data k) (fun _ => walk w args data post)
            = (trace (visit w args data k), result (visit w args data k))).
    destruct (visit w args data k) as [t [[]|e|c]];
      unfold bind, trace, result in *; simpl in *; done.
  - change (bind (visit w args data k') (fun _ => walk w args data (pre ++ k :: post))
            = (Log INFO (Overdue_date k')
                 :: (Log INFO ∘ Overdue_date <$> pre) ++ trace (visit w args data k),
               result (visit w args data k))).
    rewrite (visit_unfold w args data k'), (Hpre k') by (by left).
    rewrite IH by (intros; apply Hpre; by right). done.
Qed.

Lemma walk_once_counts w args data keys :
  once args = true →
  (length (filter is_match (trace (walk w args data keys))) ≤ 1)%nat
  ∧ (length (filter is_submit (trace (walk w args data keys))) ≤ 1)%nat.
Proof.
  intros Honce. induction keys as [|key keys IH]; simpl; [split; simpl; lia|].
  rewrite trace_bind, visit_unfold. unfold ending. rewrite Honce.
  destruct (data !! key) as [h|]; [|exact IH].
  destruct (dryrun args); [split; simpl; lia|].
  destruct (submit w key h); split; simpl; lia.
Qed.

(** C6. In once mode the run ends with the first overdue week, in ascending
    order, that has a record in the data: the weeks before it are visited
    and skipped, the week is handled (submitted unless the run is a dry
    run), and no later week is visited. The run then raises [SystemExit],
    in a dry run and when [submit] returns. So a run in once mode finds at
    most one match and calls [submit] at most once. *)
Theorem once_stops_after_first_match w args :
  once args = true →
  (∀ overdue data pre k hours post,
     Time_Reporter w (user args) (passwd args) = Returns tt →
     get_overdue_weeks w = Returns overdue →
     list_overdue args = false →
     result (load_data w args overdue) = Return data →
     sorted overdue = pre ++ k :: post →
     (∀ k', k' ∈ pre → data !! k' = None) → data !! k = Some hours →
     run w args
     = (start args ++ trace (load_data w args overdue)
          ++ (Log INFO ∘ Overdue_date <$> pre) ++ trace (visit w args data k),
        result (visit w args data k))
     ∧ result (run w args) ≠ Return tt
     ∧ (dryrun args = true ∨ submit w k hours = Returns tt →
        result (run w args) = SystemExit None))
  ∧ (length (filter is_match (trace (run w args))) ≤ 1)%nat
  ∧ (length (filter is_submit (trace (run w args))) ≤ 1)%nat.
Proof.
  intros Honce. split.
  - intros overdue data pre k hours post Hr Ho Hlist Hd Hsorted Hpre Hk.
    destruct (walk_once_stops w args data pre k hours post Honce Hpre Hk) as [Hwalk Hend].
    assert (Hrun : run w args
      = (start args ++ trace (load_data w args overdue)
           ++ (Log INFO ∘ Overdue_date <$> pre) ++ trace (visit w args data k),
         result (visit w args data k))).
    { destruct (run_path_run w args)
        as [e He|e Hr' He|ov Hr' Ho' Hsize|ov Hr' Ho' Hsize Hl'
           |ov e Hr' Ho' Hsize Hl' Hd'|ov data' Hr' Ho' Hsize Hl' Hd'];
        try congruence.
      - assert (ov = overdue) as -> by congruence.
        assert (Hlen : length (sorted overdue) = size overdue)
          by (by rewrite sorted_Permutation).
        rewrite Hsorted, length_app in Hlen. simpl in Hlen. lia.
      - assert (ov = overdue) as -> by congruence.
        assert (data' = data) as -> by congruence.
        by rewrite Hsorted, Hwalk. }
    rewrite Hrun. split; [done|]. split; [done|].
    unfold result at 1. cbn [snd].
    rewrite visit_unfold, Hk. unfold ending. rewrite Honce.
    intros [->|Hs]; [done|]. destruct (dryrun args); [done|]. by rewrite Hs.
  - destruct (run_before_loop w args) as [[Hq _]|(overdue & data & t0 & _ & _ & Hq & ->)].
    + destruct (quiet_filter _ Hq) as (-> & -> & _). simpl. lia.
    + simpl. rewrite !filter_app.
      destruct (quiet_filter _ Hq) as (-> & -> & _). simpl.
      apply walk_once_counts, Honce.
Qed.

Lemma once_stops_after_first_match_witness :
  result (run (reliable three_weeks three_lines ∅) (csv_args false true false))
  = SystemExit None
  ∧ visited (trace (run (reliable three_weeks three_lines ∅) (csv_args false true false)))
    = [mkDate 2022 12 25; mkDate 2023 1 8]
  ∧ filter is_submit (trace (run (reliable three_weeks three_lines ∅) (csv_args false true false)))
    = [Submit (mkDate 2023 1 8) [8; 4; 10; 8; 0]].
Proof.
  destruct (once_stops_after_first_match (reliable three_weeks three_lines ∅)
              (csv_args false true false) eq_refl) as (Hstop & _ & _).
  destruct (Hstop three_weeks three_records [mkDate 2022 12 25] (mkDate 2023 1 8)
              [8; 4; 10; 8; 0] [mkDate 2023 1 15]) as (_ & _ & Hexit).
  - reflexivity.
  - reflexivity.
  - reflexivity.
  - by vm_compute.
  - by vm_compute.
  - intros k' Hin. apply list_elem_of_singleton in Hin as ->. by vm_compute.
  - by vm_compute.
  - split; [apply Hexit; by right|]. split; by vm_compute.
Defined.

(** ** [run]: the order of the visits *)

Lemma visited_app t1 t2 : visited (t1 ++ t2) = visited t1 ++ visited t2.
Proof. apply omap_app. Qed.

Lemma visited_visit w args data key : visited (trace (visit w args data key)) = [key].
Proof.
  rewrite visit_unfold. destruct (data !! key) as [h|]; [|done].
  destruct (dryrun args); [done|]. by destruct (submit w key h).
Qed.

Lemma visited_walk_cons w args data key keys :
  visited (trace (walk w args data (key :: keys)))
  = key :: match result (visit w args data key) with
           | Return _ => visited (trace (walk w args data keys))
           | _ => []
           end.
Proof.
  change (walk w args data (key :: keys))
    with (bind (visit w args data key) (fun _ => walk w args data keys)).
  rewrite trace_bind, visited_app, visited_visit.
  by destruct (result (visit w args data key)).
Qed.

(** The loop visits a first part of its keys, in their order. *)
Lemma visited_walk_prefix w args data keys :
  visited (trace (walk w args data keys)) `prefix_of` keys.
Proof.
  induction keys as [|key keys IH]; [done|].
  rewrite visited_walk_cons. apply prefix_cons.
  destruct (result (visit w args data key)); [done|apply prefix_nil|apply prefix_nil].
Qed.

(** In once mode, a visited key with a record is the first key with a record. *)
Lemma walk_once_visited w args data keys wk :
  once args = true →
  wk ∈ visited (trace (walk w args data keys)) → is_Some (data !! wk) →
  ∃ pre post, keys = pre ++ wk :: post ∧ ∀ k', k' ∈ pre → data !! k' = None.
Proof.
  intros Honce. induction keys as [|key keys IH]; [by intros ?%elem_of_nil|].
  rewrite visited_walk_cons, visit_unfold. unfold ending. rewrite Honce.
  destruct (data !! key) as [h|] eqn:Hkey.
  - intros Hin _. exists [], keys. split; [|by intros ? ?%elem_of_nil].
    assert (Hin' : wk ∈ [key]).
    { destruct (dryrun args); [done|]. by destruct (submit w key h). }
    by apply list_elem_of_singleton in Hin' as ->.
  - unfold result at 1. cbn [snd]. intros [->|Hin]%elem_of_cons Hsome.
    + rewrite Hkey in Hsome. by destruct Hsome.
    + destruct (IH Hin Hsome) as (pre & post & -> & Hpre).
      exists (key :: pre), post. split; [done|].
      intros k' [->|?]%elem_of_cons; [done|by apply Hpre].
Qed.

(** A loop that returns has visited all its keys. *)
Lemma visited_walk_all w args data keys :
  result (walk w args data keys) = Return tt →
  visited (trace (walk w args data keys)) = keys.
Proof.
  induction keys as [|key keys IH]; [done|].
  rewrite visited_walk_cons.
  change (walk w args data (key :: keys))
    with (bind (visit w args data key) (fun _ => walk w args data keys)).
  rewrite result_bind.
  destruct (result (visit w args data key)); [|done|done].
  intros Hres. by rewrite IH.
Qed.

Lemma StronglySorted_prefix {A} (R : relation A) (l1 l2 : list A) :
  l1 `prefix_of` l2 → StronglySorted R l2 → StronglySorted R l1.
Proof. intros [k ->]. apply StronglySorted_app_1_l. Qed.

(** * Further properties *)

(** ** [process_csv]: how the dictionary is built *)

(** What a line does to the dictionary does not depend on the dictionary. *)
Lemma process_line_union dates_hours l :
  process_line dates_hours l
  = (trace (process_line ∅ l),
     match result (process_line ∅ l) with
     | Return d => Return (d ∪ dates_hours)
     | Raise e => Raise e
     | SystemExit c => SystemExit c
     end).
Proof.
  unfold process_line. cbv zeta.
  destruct (negb (length (Py.split "," (Py.rstrip l)) =? 6)%nat).
  { simpl. by rewrite (left_id_L ∅ (∪)). }
  destruct (Format.strptime _) as [d|].
  2:{ simpl. by rewrite (left_id_L ∅ (∪)). }
  destruct (negb (Datetime.weekday d =? 6)).
  { simpl. by rewrite (left_id_L ∅ (∪)). }
  destruct (weekday_hours_of _) as [wh|]; [|done].
  destruct (negb (length wh =? 5)%nat); simpl.
  - by rewrite (left_id_L ∅ (∪)).
  - by rewrite <- insert_union_l, (left_id_L ∅ (∪)).
Qed.

Lemma process_lines_union ls : ∀ m0 m m',
  result (process_lines m0 ls) = Return m' →
  process_lines (m0 ∪ m) ls = (trace (process_lines m0 ls), Return (m' ∪ m)).
Proof.
  induction ls as [|l ls IH]; intros m0 m m'; simpl.
  - by intros [= <-].
  - rewrite (process_line_union m0 l), (process_line_union (m0 ∪ m) l).
    destruct (result (process_line ∅ l)) as [d| |]; [|done|done].
    unfold bind at 1 2 3. cbn [fst snd]. intros Hres.
    rewrite (assoc_L (∪)), (IH (d ∪ m0) m m' Hres). done.
Qed.

(** X1. The lines of two files, one after the other, give the dictionary of
    the second file completed by that of the first: on a date that both
    files have, the later lines win. *)
Theorem later_lines_win open1 open2 open12 infile f1 f2 m1 m2 :
  open1 infile = Returns f1 → open2 infile = Returns f2 →
  open12 infile = Returns (f1 ++ f2) →
  result (process_csv open1 infile) = Return m1 →
  result (process_csv open2 infile) = Return m2 →
  result (process_csv open12 infile) = Return (m2 ∪ m1)
  ∧ (∀ k hours, m2 !! k = Some hours → (m2 ∪ m1) !! k = Some hours)
  ∧ (∀ k, m2 !! k = None → (m2 ∪ m1) !! k = m1 !! k).
Proof.
  intros H1 H2 H12 (f1' & H1' & Hm1)%process_csv_returns
    (f2' & H2' & Hm2)%process_csv_returns.
  assert (f1' = f1) as -> by congruence.
  assert (f2' = f2) as -> by congruence.
  rewrite (process_csv_result _ _ _ H12).
  change (result (?t, ?o)) with o.
  split; [|split].
  - rewrite process_lines_app, result_bind, Hm1.
    pose proof (process_lines_union f2 ∅ m1 m2 Hm2) as Hu.
    rewrite (left_id_L ∅ (∪)) in Hu. by rewrite Hu.
  - intros k hours Hk. by apply lookup_union_Some_l.
  - intros k Hk. by apply lookup_union_r.
Qed.

Lemma later_lines_win_witness :
  result (process_csv (fun _ => Returns (["2023-01-01,1,2,3,4,5" +:+ LF; "2023-01-08,,,,," +:+ LF]
                                         ++ ["2023-01-01,,,,,0" +:+ LF])) "hours.csv")
  = Return ({[ mkDate 2023 1 1 := [8; 8; 8; 8; 0] ]}
            ∪ (<[ mkDate 2023 1 8 := [8; 8; 8; 8; 8] ]>
                 {[ mkDate 2023 1 1 := [1; 2; 3; 4; 5] ]})).
Proof.
  apply (later_lines_win
           (fun _ => Returns ["2023-01-01,1,2,3,4,5" +:+ LF; "2023-01-08,,,,," +:+ LF])
           (fun _ => Returns ["2023-01-01,,,,,0" +:+ LF])
           _ "hours.csv" _ _ _ _ eq_refl eq_refl eq_refl); reflexivity.
Defined.

(** The hours cannot be computed exactly when some field is neither empty
    nor accepted by [int]. *)
Lemma weekday_hours_of_None xs x :
  x ∈ xs → x ≠ "" → Py.int x = None → weekday_hours_of xs = None.
Proof.
  intros Hin Hne Hint. induction xs as [|y xs IH]; [by apply elem_of_nil in Hin|].
  simpl. apply elem_of_cons in Hin as [<-|Hin].
  - destruct x; [done|]. simpl. by rewrite Hint.
  - rewrite (IH Hin). by destruct (if (Py.len y <? 1)%nat then Some 8 else Py.int y).
Qed.

Lemma process_csv_bad_hour open_file infile pre l post dates_hours d x :
  open_file infile = Returns (pre ++ l :: post) →
  result (process_lines ∅ pre) = Return dates_hours →
  length (fields l) = 6%nat → line_date l = Some d → Datetime.weekday d = 6 →
  x ∈ Py.slice 1 6 (fields l) → x ≠ "" → Py.int x = None →
  process_csv open_file infile
  = (Open infile :: trace (process_lines ∅ pre)
       ++ [Log DEBUG (Processing_line (Py.rstrip l))],
     Raise ValueError).
Proof.
  intros Hf Hpre Hlen Hdate Hwd Hin Hne Hint.
  rewrite (process_csv_result _ _ _ Hf).
  assert (Hl : process_line dates_hours l
               = ([Log DEBUG (Processing_line (Py.rstrip l))], Raise ValueError)).
  { pose proof (weekday_hours_of_None _ _ Hin Hne Hint) as Hnone.
    destruct (process_line_step dates_hours l); try done; congruence. }
  rewrite process_lines_app. rewrite (M_eta (process_lines ∅ pre)), Hpre.
  unfold bind at 1. cbn [fst snd]. simpl. rewrite Hl. done.
Qed.

(** X2. A line with 6 fields and a Sunday date, one of whose hour fields is
    not empty and not accepted by [int], ends [process_csv] with
    [ValueError] when the lines before it are processed to the end: the
    dictionary built so far is lost and the lines after it are not read. *)
Theorem bad_hour_field_raises open_file infile pre l post dates_hours d x :
  open_file infile = Returns (pre ++ l :: post) →
  result (process_lines ∅ pre) = Return dates_hours →
  length (fields l) = 6%nat → line_date l = Some d → Datetime.weekday d = 6 →
  x ∈ Py.slice 1 6 (fields l) → x ≠ "" → Py.int x = None →
  process_csv open_file infile
  = (Open infile :: trace (process_lines ∅ pre)
       ++ [Log DEBUG (Processing_line (Py.rstrip l))],
     Raise ValueError).
Proof. apply process_csv_bad_hour. Qed.

Lemma bad_hour_field_raises_witness :
  process_csv (fun _ => Returns (["2023-01-01,,,,," +:+ LF]
                                 ++ ("2023-01-08,8,8.5,8,8,8" +:+ LF)
                                 :: ["2023-01-15,,,,," +:+ LF])) "hours.csv"
  = ([Open "hours.csv"; Log DEBUG (Processing_line "2023-01-01,,,,,");
      Log DEBUG (Processing_line "2023-01-08,8,8.5,8,8,8")],
     Raise ValueError).
Proof.
  apply (bad_hour_field_raises _ "hours.csv" ["2023-01-01,,,,," +:+ LF]
           ("2023-01-08,8,8.5,8,8,8" +:+ LF) ["2023-01-15,,,,," +:+ LF]
           {[ mkDate 2023 1 1 := [8; 8; 8; 8; 8] ]} (mkDate 2023 1 8) "8.5");
    try reflexivity.
  - vm_compute. apply list_elem_of_further, list_elem_of_here.
  - discriminate.
Defined.

(** X3. With [--csv], such a line in the file ends the run with
    [ValueError] before the reconciliation loop: no overdue week is visited
    and nothing is submitted, whatever the other lines hold. *)
Theorem bad_hour_field_prevents_submissions w args overdue infile pre l post dates_hours d x :
  Time_Reporter w (user args) (passwd args) = Returns tt →
  get_overdue_weeks w = Returns overdue →
  overdue ≠ ∅ →
  list_overdue args = false →
  if_truthy (csv args) = Some infile →
  open_file w infile = Returns (pre ++ l :: post) →
  result (process_lines ∅ pre) = Return dates_hours →
  length (fields l) = 6%nat → line_date l = Some d → Datetime.weekday d = 6 →
  x ∈ Py.slice 1 6 (fields l) → x ≠ "" → Py.int x = None →
  result (run w args) = Raise ValueError
  ∧ visited (trace (run w args)) = []
  ∧ ∀ k hours, Submit k hours ∉ trace (run w args).
Proof.
  intros Hr Ho Hne Hlist Hcsv Hf Hpre Hlen Hdate Hwd Hin Hx Hint.
  assert (Hload : result (load_data w args overdue) = Raise ValueError).
  { unfold load_data. rewrite Hcsv, result_bind.
    by rewrite (process_csv_bad_hour _ _ _ _ _ _ _ _ Hf Hpre Hlen Hdate Hwd Hin Hx Hint). }
  destruct (run_before_loop w args) as [[Hq _]|(ov & dt & t0 & Ho' & Hd' & _ & _)].
  2:{ assert (ov = overdue) as -> by congruence. congruence. }
  destruct (quiet_filter _ Hq) as (_ & _ & Hv & Hs).
  split; [|by split].
  destruct (run_path_run w args)
    as [e He|e Hr' He|ov Hr' Ho' Hsize|ov Hr' Ho' Hsize Hl'
       |ov e Hr' Ho' Hsize Hl' Hd'|ov data' Hr' Ho' Hsize Hl' Hd'];
    try congruence.
  - assert (ov = overdue) as -> by congruence.
    apply size_empty_iff, leibniz_equiv in Hsize. done.
  - assert (ov = overdue) as -> by congruence. unfold result. simpl. congruence.
Qed.

Lemma bad_hour_field_prevents_submissions_witness :
  result (run (reliable two_weeks ["2023-01-01,,,,," +:+ LF; "2023-01-08,8,8.5,8,8,8" +:+ LF] ∅)
              (csv_args false false false))
  = Raise ValueError
  ∧ visited (trace (run (reliable two_weeks
                           ["2023-01-01,,,,," +:+ LF; "2023-01-08,8,8.5,8,8,8" +:+ LF] ∅)
                        (csv_args false false false))) = [].
Proof.
  destruct (bad_hour_field_prevents_submissions
              (reliable two_weeks ["2023-01-01,,,,," +:+ LF; "2023-01-08,8,8.5,8,8,8" +:+ LF] ∅)
              (csv_args false false false) two_weeks "hours.csv"
              ["2023-01-01,,,,," +:+ LF] ("2023-01-08,8,8.5,8,8,8" +:+ LF) []
              {[ mkDate 2023 1 1 := [8; 8; 8; 8; 8] ]} (mkDate 2023 1 8) "8.5")
    as (Hres & Hvis & _); try reflexivity.
  - by vm_compute.
  - vm_compute. apply list_elem_of_further, list_elem_of_here.
  - discriminate.
  - by split.
Defined.

(** ** [process_csv]: what the dictionary holds *)

Lemma strptime_valid s d : Format.strptime s = Some d → Datetime.valid d = true.
Proof.
  unfold Format.strptime. intros H.
  repeat case_match; try discriminate. by simplify_eq.
Qed.

Lemma process_lines_invariant (P : gmap date (list Z) → Prop) ls : ∀ m0 m,
  P m0 →
  (∀ m1 l d hours,
     P m1 → line_date l = Some d → Datetime.weekday d = 6 → length hours = 5%nat →
     P (<[d := hours]> m1)) →
  result (process_lines m0 ls) = Return m → P m.
Proof.
  induction ls as [|l ls IH]; intros m0 m H0 Hstep; simpl.
  - by intros [= <-].
  - rewrite result_bind.
    destruct (process_line_step m0 l); simpl; try done; try (by apply IH).
    apply IH; [|done]. by eapply Hstep.
Qed.

(** X4. Every record of the dictionary that [process_csv] returns has
    exactly five hours, and every key is a date of the calendar (a year
    from 1 to 9999, a month from 1 to 12, a day of that month). *)
Theorem records_are_well_formed open_file infile data k hours :
  result (process_csv open_file infile) = Return data →
  data !! k = Some hours →
  length hours = 5%nat ∧ Datetime.valid k = true.
Proof.
  intros (f & _ & Hres)%process_csv_returns.
  revert k hours.
  apply (process_lines_invariant
           (fun m => ∀ k hours, m !! k = Some hours →
                                length hours = 5%nat ∧ Datetime.valid k = true)
           f ∅ data); [done| |done].
  intros m1 l d wh Hm1 Hdate _ Hlen k hours.
  rewrite lookup_insert. case_decide as Hk.
  - intros [= <-]. subst k. split; [done|]. by eapply strptime_valid.
  - apply Hm1.
Qed.

Lemma records_are_well_formed_witness :
  length [8; 4; 10; 8; 0] = 5%nat ∧ Datetime.valid (mkDate 2023 1 8) = true.
Proof.
  apply (records_are_well_formed (fun _ => Returns three_lines) "hours.csv" three_records);
    reflexivity.
Defined.

(** ** [process_csv]: hour fields with a sign *)

Lemma int_signed x :
  all Py.isdigit x = true → (Py.len x <= Py.max_str_digits)%nat → x ≠ "" →
  Py.int (String "+" x) = Some (decimal x)
  ∧ Py.int (String "-" x) = Some (- decimal x).
Proof.
  intros Hx Hlen Hne.
  assert (Hsp : all (fun c => negb (Py.isspace_int c)) x = true).
  { eapply all_impl; [|exact Hx]. intros c Hc. by rewrite isdigit_not_space_int. }
  pose proof (int_literal_decimal x Hx Hlen Hne) as Hd.
  unfold Py.int. split.
  - rewrite strip_left_id, strip_right_id by (simpl; by rewrite Hsp).
    change (Ascii.eqb "+" "+") with true. cbv iota. exact Hd.
  - rewrite strip_left_id, strip_right_id by (simpl; by rewrite Hsp).
    change (Ascii.eqb "-" "+") with false. change (Ascii.eqb "-" "-") with true.
    cbv iota. by rewrite Hd.
Qed.

Lemma hour_text_chars x v :
  hour_text x v →
  all not_comma x = true ∧ all (fun c => negb (Py.isspace c)) x = true.
Proof.
  intros [|y Hy _ _|y Hy _ _|y Hy _ _]; simpl;
    auto using digits_not_comma, digits_not_space.
Qed.

Lemma weekday_hours_of_text xs vs :
  Forall2 hour_text xs vs → weekday_hours_of xs = Some vs.
Proof.
  induction 1 as [|x v xs vs Hx _ IH]; [done|].
  simpl. rewrite IH.
  destruct Hx as [|y Hy Hlen Hne|y Hy Hlen Hne|y Hy Hlen Hne].
  - done.
  - destruct y as [|c r]; [done|].
    change (Py.len (String c r) <? 1)%nat with false. cbv iota.
    by rewrite (int_decimal (String c r)).
  - change (Py.len (String "+" y) <? 1)%nat with false. cbv iota.
    by rewrite (proj1 (int_signed y Hy Hlen Hne)).
  - change (Py.len (String "-" y) <? 1)%nat with false. cbv iota.
    by rewrite (proj2 (int_signed y Hy Hlen Hne)).
Qed.

Lemma fields_of_csv_line date a b c d e eol :
  all not_comma date = true →
  all not_comma a = true → all not_comma b = true → all not_comma c = true →
  all not_comma d = true → all not_comma e = true →
  all (fun c => negb (Py.isspace c)) e = true → all Py.isspace eol = true →
  Py.rstrip (csv_line date a b c d e +:+ eol) = csv_line date a b c d e
  ∧ fields (csv_line date a b c d e +:+ eol) = [date; a; b; c; d; e].
Proof.
  intros Hdate Ha Hb Hc Hd He Hsp Heol.
  assert (Hstrip : Py.rstrip (csv_line date a b c d e +:+ eol) = csv_line date a b c d e).
  { unfold Py.rstrip, csv_line. rewrite !append_assoc, !comma_append.
    rewrite !strip_right_keep by done. by rewrite strip_right_app. }
  split; [done|]. unfold fields. rewrite Hstrip. unfold csv_line.
  rewrite !comma_append, !split_cons by done. by rewrite split_last.
Qed.

(** X5. An hour field may carry a sign: [+n] is read as [n] and [-n] as
    the negative of [n]. A line [date,a,b,c,d,e] whose date is a Sunday and
    whose hour fields are each empty or an integer with or without a sign,
    of no more digits than [int] converts, is stored with these integers,
    negative ones included. *)
Theorem signed_hours_are_stored date a b c d e eol dt va vb vc vd ve :
  Format.strptime date = Some dt → Datetime.weekday dt = 6 →
  hour_text a va → hour_text b vb → hour_text c vc → hour_text d vd → hour_text e ve →
  all Py.isspace eol = true →
  (∀ dates_hours,
     process_line dates_hours (csv_line date a b c d e +:+ eol)
     = ([Log DEBUG (Processing_line (csv_line date a b c d e))],
        Return (<[dt := [va; vb; vc; vd; ve]]> dates_hours)))
  ∧ (∀ open_file infile,
       open_file infile = Returns [csv_line date a b c d e +:+ eol] →
       result (process_csv open_file infile) = Return {[ dt := [va; vb; vc; vd; ve] ]}).
Proof.
  intros Hdate Hwd Ha Hb Hc Hd He Heol.
  destruct (hour_text_chars _ _ Ha) as [Ha1 _]. destruct (hour_text_chars _ _ Hb) as [Hb1 _].
  destruct (hour_text_chars _ _ Hc) as [Hc1 _]. destruct (hour_text_chars _ _ Hd) as [Hd1 _].
  destruct (hour_text_chars _ _ He) as [He1 He2].
  destruct (fields_of_csv_line date a b c d e eol) as [Hstrip Hfields];
    eauto using strptime_not_comma.
  assert (Hhours : weekday_hours_of [a; b; c; d; e] = Some [va; vb; vc; vd; ve]).
  { apply weekday_hours_of_text. by repeat constructor. }
  assert (Hline : ∀ m, process_line m (csv_line date a b c d e +:+ eol)
                       = ([Log DEBUG (Processing_line (csv_line date a b c d e))],
                          Return (<[dt := [va; vb; vc; vd; ve]]> m))).
  { intros m.
    destruct (process_line_step m (csv_line date a b c d e +:+ eol))
      as [Hlen|_ Hnone|d' _ Hsome Hnot|d' _ _ _ Hraise|d' wh _ Hsome _ Hwh _];
      unfold line_date in *; rewrite ?Hfields, ?Hstrip in *; simpl in *.
    - done.
    - congruence.
    - congruence.
    - unfold Py.slice in Hraise. simpl in Hraise. congruence.
    - unfold Py.slice in Hwh. simpl in Hwh. congruence. }
  split; [exact Hline|].
  intros open_file infile Hf. rewrite (process_csv_result _ _ _ Hf). simpl.
  rewrite result_bind, Hline. done.
Qed.

Lemma signed_hours_are_stored_witness :
  result (process_csv (fun _ => Returns ["2023-01-08,-3,+4,,10,0" +:+ LF]) "hours.csv")
  = Return {[ mkDate 2023 1 8 := [-3; 4; 8; 10; 0] ]}.
Proof.
  assert (Hlen : ∀ n, (n <= 2)%nat → (n <= Py.max_str_digits)%nat).
  { intros n Hn. etrans; [exact Hn|]. by apply Nat.leb_le. }
  assert (Ha : hour_text "-3" (-3)) by (apply (hour_minus "3"); [done|apply Hlen; simpl; lia|done]).
  assert (Hb : hour_text "+4" 4) by (apply (hour_plus "4"); [done|apply Hlen; simpl; lia|done]).
  assert (Hd : hour_text "10" 10) by (apply (hour_digits "10"); [done|apply Hlen; simpl; lia|done]).
  assert (He : hour_text "0" 0) by (apply (hour_digits "0"); [done|apply Hlen; simpl; lia|done]).
  exact (proj2 (signed_hours_are_stored "2023-01-08" "-3" "+4" "" "10" "0" LF
                  (mkDate 2023 1 8) (-3) 4 8 10 0 eq_refl eq_refl
                  Ha Hb hour_empty Hd He eq_refl)
               (fun _ => Returns ["2023-01-08,-3,+4,,10,0" +:+ LF]) "hours.csv" eq_refl).
Defined.

(** ** [run]: what is submitted *)

Lemma run_reaches_loop w args overdue data :
  Time_Reporter w (user args) (passwd args) = Returns tt →
  get_overdue_weeks w = Returns overdue →
  overdue ≠ ∅ →
  list_overdue args = false →
  result (load_data w args overdue) = Return data →
  run w args
  = (start args ++ trace (load_data w args overdue)
       ++ trace (walk w args data (sorted overdue)),
     result (walk w args data (sorted overdue))).
Proof.
  intros Hr Ho Hne Hlist Hd.
  destruct (run_path_run w args)
    as [e He|e Hr' He|ov Hr' Ho' Hsize|ov Hr' Ho' Hsize Hl'
       |ov e Hr' Ho' Hsize Hl' Hd'|ov data' Hr' Ho' Hsize Hl' Hd'];
    try congruence.
  - assert (ov = overdue) as -> by congruence.
    apply size_empty_iff, leibniz_equiv in Hsize. done.
Qed.

Lemma walk_cons w args data key keys :
  walk w args data (key :: keys)
  = bind (visit w args data key) (fun _ => walk w args data keys).
Proof. reflexivity. Qed.

Lemma due_cons data key keys :
  due data (key :: keys)
  = match data !! key with
    | Some hours => Submit key hours :: due data keys
    | None => due data keys
    end.
Proof. unfold due. simpl. by destruct (data !! key). Qed.

Lemma elem_of_due data keys e :
  e ∈ due data keys ↔ ∃ k hours, e = Submit k hours ∧ k ∈ keys ∧ data !! k = Some hours.
Proof.
  unfold due. rewrite list_elem_of_omap. split.
  - intros (k & Hk & He). destruct (data !! k) as [h|] eqn:Hd; [|done].
    simpl in He. injection He as <-. eauto.
  - intros (k & h & -> & Hk & Hd). exists k. by rewrite Hd.
Qed.

Lemma walk_dryrun_filter w args data keys :
  dryrun args = true → filter is_submit (trace (walk w args data keys)) = [].
Proof.
  intros Hdry. induction keys as [|key keys IH]; [done|].
  rewrite walk_cons, trace_bind, filter_app, visit_unfold, Hdry.
  destruct (data !! key) as [h|]; [|exact IH].
  unfold ending. destruct (once args); [done|exact IH].
Qed.

Lemma walk_submits_prefix w args data keys :
  filter is_submit (trace (walk w args data keys)) `prefix_of` due data keys.
Proof.
  destruct (dryrun args) eqn:Hdry.
  { rewrite walk_dryrun_filter by done. apply prefix_nil. }
  induction keys as [|key keys IH]; [done|].
  rewrite walk_cons, trace_bind, filter_app, visit_unfold, due_cons, Hdry.
  destruct (data !! key) as [h|]; [|exact IH].
  unfold ending.
  destruct (submit w key h); [|by apply prefix_cons, prefix_nil].
  destruct (once args); [by apply prefix_cons, prefix_nil|].
  by apply prefix_cons.
Qed.

(** X6. Whatever the flags and whatever the collaborators answer, the calls
    of [submit] in a run are a first part of the submissions that are due:
    the overdue weeks that have a record, in ascending order, each with its
    record. So every week submitted is an overdue week, submitted with the
    hours that the data holds for it. *)
Theorem submissions_are_due w args overdue data :
  get_overdue_weeks w = Returns overdue →
  result (load_data w args overdue) = Return data →
  filter is_submit (trace (run w args)) `prefix_of` due data (sorted overdue)
  ∧ ∀ k hours, Submit k hours ∈ trace (run w args) →
               k ∈ overdue ∧ data !! k = Some hours.
Proof.
  intros Ho Hd.
  assert (Hprefix : filter is_submit (trace (run w args))
                    `prefix_of` due data (sorted overdue)).
  { destruct (run_before_loop w args) as [[Hq _]|(ov & dt & t0 & Ho' & Hd' & Hq & ->)].
    - destruct (quiet_filter _ Hq) as (-> & _). apply prefix_nil.
    - assert (ov = overdue) as -> by congruence.
      assert (dt = data) as -> by congruence.
      unfold trace at 1. cbn [fst]. rewrite filter_app.
      destruct (quiet_filter _ Hq) as (-> & _). apply walk_submits_prefix. }
  split; [done|]. intros k hours Hin.
  assert (Hdue : Submit k hours ∈ due data (sorted overdue)).
  { destruct Hprefix as [rest ->]. apply elem_of_app. left.
    by apply list_elem_of_filter. }
  apply elem_of_due in Hdue as (k' & h' & [= -> ->] & Hk & Hdata).
  by apply elem_of_sorted in Hk.
Qed.

Lemma submissions_are_due_witness :
  filter is_submit (trace (run (reliable three_weeks three_lines ∅) (csv_args false true false)))
  `prefix_of` due three_records (sorted three_weeks).
Proof.
  apply (submissions_are_due (reliable three_weeks three_lines ∅) (csv_args false true false)
           three_weeks three_records); [reflexivity|vm_compute; reflexivity].
Defined.

Lemma trace_pair {A} (t : list event) (o : outcome A) : trace (t, o) = t.
Proof. reflexivity. Qed.

Lemma result_pair {A} (t : list event) (o : outcome A) : result (t, o) = o.
Proof. reflexivity. Qed.

Lemma walk_app w args data xs ys :
  walk w args data (xs ++ ys)
  = bind (walk w args data xs) (fun _ => walk w args data ys).
Proof.
  induction xs as [|x xs IH]; simpl.
  - by rewrite bind_ret_l.
  - rewrite bind_assoc. apply bind_ext. intros _. apply IH.
Qed.

Lemma due_app data xs ys : due data (xs ++ ys) = due data xs ++ due data ys.
Proof. apply omap_app. Qed.

(** The loop without once mode and without dry run, while [submit] returns:
    every key is visited, every due submission is made, the loop returns. *)
Lemma walk_all_submitted w args data keys :
  once args = false → dryrun args = false →
  (∀ k hours, k ∈ keys → data !! k = Some hours → submit w k hours = Returns tt) →
  result (walk w args data keys) = Return tt
  ∧ filter is_submit (trace (walk w args data keys)) = due data keys
  ∧ visited (trace (walk w args data keys)) = keys.
Proof.
  intros Honce Hdry. induction keys as [|key keys IH]; intros Hsub; [done|].
  destruct IH as (IHr & IHs & IHv); [intros; eapply Hsub; [by right|done]|].
  rewrite visited_walk_cons, walk_cons, result_bind, trace_bind, filter_app, due_cons.
  rewrite visit_unfold, Hdry. unfold ending. rewrite Honce.
  destruct (data !! key) as [h|] eqn:Hk.
  - rewrite (Hsub key h) by (by left || done). unfold result at 1 2 3. cbn [snd].
    rewrite IHs, IHv. done.
  - unfold result at 1 2 3. cbn [snd]. rewrite IHs, IHv. done.
Qed.

(** X7. Without once mode and without dry run, when every call of [submit]
    returns, the run submits exactly the overdue weeks that have a record,
    in ascending order, each once and with its record; it visits every
    overdue week and returns. *)
Theorem all_due_weeks_are_submitted w args overdue data :
  Time_Reporter w (user args) (passwd args) = Returns tt →
  get_overdue_weeks w = Returns overdue →
  overdue ≠ ∅ →
  list_overdue args = false →
  result (load_data w args overdue) = Return data →
  once args = false → dryrun args = false →
  (∀ k hours, k ∈ overdue → data !! k = Some hours → submit w k hours = Returns tt) →
  filter is_submit (trace (run w args)) = due data (sorted overdue)
  ∧ visited (trace (run w args)) = sorted overdue
  ∧ result (run w args) = Return tt.
Proof.
  intros Hr Ho Hne Hlist Hd Honce Hdry Hsub.
  rewrite (run_reaches_loop w args overdue data) by done.
  destruct (walk_all_submitted w args data (sorted overdue) Honce Hdry)
    as (Hres & Hs & Hv).
  { intros k h Hk. apply Hsub. by apply elem_of_sorted. }
  assert (Hq : Forall quiet (start args ++ trace (load_data w args overdue))).
  { apply Forall_app. split; [by repeat constructor|apply load_data_quiet]. }
  destruct (quiet_filter _ Hq) as (Hqs & _ & Hqv & _).
  rewrite !trace_pair, !result_pair.
  rewrite !app_assoc, filter_app, visited_app, Hqs, Hqv, Hs, Hv. done.
Qed.

Lemma all_due_weeks_are_submitted_witness :
  filter is_submit (trace (run (reliable three_weeks three_lines ∅) (csv_args false false false)))
  = [Submit (mkDate 2023 1 8) [8; 4; 10; 8; 0]; Submit (mkDate 2023 1 15) [8; 8; 8; 8; 8]]
  ∧ result (run (reliable three_weeks three_lines ∅) (csv_args false false false)) = Return tt.
Proof.
  destruct (all_due_weeks_are_submitted (reliable three_weeks three_lines ∅)
              (csv_args false false false) three_weeks three_records)
    as (Hs & _ & Hres).
  - reflexivity.
  - reflexivity.
  - intros H. apply (f_equal size) in H. vm_compute in H. discriminate.
  - reflexivity.
  - vm_compute. reflexivity.
  - reflexivity.
  - reflexivity.
  - reflexivity.
  - split; [rewrite Hs; vm_compute; reflexivity|exact Hres].
Defined.

(** X8. Without once mode and without dry run, the first call of [submit]
    that raises ends the run with that exception: the weeks before were
    visited and the due ones submitted, the failing call is the last event
    of the run, and no later week is visited. *)
Theorem first_submit_failure_ends_run w args overdue data pre k hours post e :
  Time_Reporter w (user args) (passwd args) = Returns tt →
  get_overdue_weeks w = Returns overdue →
  list_overdue args = false →
  result (load_data w args overdue) = Return data →
  once args = false → dryrun args = false →
  sorted overdue = pre ++ k :: post →
  (∀ k' h', k' ∈ pre → data !! k' = Some h' → submit w k' h' = Returns tt) →
  data !! k = Some hours → submit w k hours = Raises e →
  result (run w args) = Raise e
  ∧ last (trace (run w args)) = Some (Submit k hours)
  ∧ visited (trace (run w args)) = pre ++ [k]
  ∧ filter is_submit (trace (run w args)) = due data pre ++ [Submit k hours].
Proof.
  intros Hr Ho Hlist Hd Honce Hdry Hsorted Hpre Hk He.
  assert (Hne : overdue ≠ ∅).
  { intros ->. unfold sorted in Hsorted. rewrite elements_empty in Hsorted.
    by destruct pre. }
  rewrite (run_reaches_loop w args overdue data) by done.
  destruct (walk_all_submitted w args data pre Honce Hdry Hpre) as (Hres & Hs & Hv).
  assert (Hwalk : walk w args data (sorted overdue)
                  = (trace (walk w args data pre)
                       ++ [Log INFO (Overdue_date k); Log INFO (Found_match k hours);
                           Submit k hours],
                     Raise e)).
  { rewrite Hsorted, walk_app, (M_eta (walk w args data pre)), Hres.
    unfold bind at 1. cbn [fst snd].
    rewrite walk_cons, visit_unfold, Hk, Hdry, He. done. }
  rewrite Hwalk.
  assert (Hq : Forall quiet (start args ++ trace (load_data w args overdue))).
  { apply Forall_app. split; [by repeat constructor|apply load_data_quiet]. }
  destruct (quiet_filter _ Hq) as (Hqs & _ & Hqv & _).
  rewrite !trace_pair, !result_pair, (app_assoc (start args)).
  set (t0 := start args ++ trace (load_data w args overdue)) in *.
  set (t1 := trace (walk w args data pre)) in *.
  split; [done|]. split; [|split].
  - change [Log INFO (Overdue_date k); Log INFO (Found_match k hours); Submit k hours]
      with ([Log INFO (Overdue_date k); Log INFO (Found_match k hours)] ++ [Submit k hours]).
    rewrite !app_assoc. apply last_snoc.
  - rewrite !visited_app, Hqv, Hv. done.
  - rewrite !filter_app, Hqs, Hs. done.
Qed.

Lemma first_submit_failure_ends_run_witness :
  result (run (failing_at (mkDate 2023 1 8) three_weeks three_lines) (csv_args false false false))
  = Raise (Error "SubmitError")
  ∧ visited (trace (run (failing_at (mkDate 2023 1 8) three_weeks three_lines)
                        (csv_args false false false)))
    = [mkDate 2022 12 25] ++ [mkDate 2023 1 8].
Proof.
  destruct (first_submit_failure_ends_run
              (failing_at (mkDate 2023 1 8) three_weeks three_lines)
              (csv_args false false false) three_weeks three_records
              [mkDate 2022 12 25] (mkDate 2023 1 8) [8; 4; 10; 8; 0] [mkDate 2023 1 15]
              (Error "SubmitError"))
    as (Hres & _ & Hv & _).
  - reflexivity.
  - reflexivity.
  - reflexivity.
  - vm_compute. reflexivity.
  - reflexivity.
  - reflexivity.
  - vm_compute. reflexivity.
  - intros k' h' Hk' _. apply list_elem_of_singleton in Hk' as ->. reflexivity.
  - vm_compute. reflexivity.
  - reflexivity.
  - by split.
Defined.

(** ** [run]: the choice of the data source *)

Lemma date_le_refl a : Datetime.le a a.
Proof. unfold Datetime.le. right. split; [done|]. right. split; [done|lia]. Qed.

Lemma foldl_min_spec ks : ∀ k,
  let m := foldl (fun m x => if decide (Datetime.lt x m) then x else m) k ks in
  m ∈ k :: ks ∧ ∀ x, x ∈ k :: ks → Datetime.le m x.
Proof.
  induction ks as [|y ks IH]; intros k; simpl.
  - split; [by left|]. intros x ->%list_elem_of_singleton. apply date_le_refl.
  - destruct (IH (if decide (Datetime.lt y k) then y else k)) as [Hin Hle].
    simpl in Hin, Hle. split.
    + apply elem_of_cons in Hin as [->|Hin]; [|by do 2 right].
      case_decide; [right; by left|by left].
    + assert (Hk : Datetime.le (if decide (Datetime.lt y k) then y else k) k
                   ∧ Datetime.le (if decide (Datetime.lt y k) then y else k) y).
      { case_decide as Hlt.
        - split; [by destruct Hlt|apply date_le_refl].
        - split; [apply date_le_refl|].
          destruct (total Datetime.le k y) as [?|Hyk]; [done|].
          destruct (decide (y = k)) as [->|Hne]; [apply date_le_refl|].
          destruct Hlt. by split. }
      destruct Hk as [Hk Hy].
      intros x [->|[->|Hx]%elem_of_cons]%elem_of_cons.
      * etrans; [|exact Hk]. apply Hle. by left.
      * etrans; [|exact Hy]. apply Hle. by left.
      * apply Hle. by right.
Qed.

(** [min] gives a least element of a sequence that is not empty. *)
Lemma min_key_spec ks :
  ks ≠ [] → ∃ m, min_key ks = Some m ∧ m ∈ ks ∧ ∀ x, x ∈ ks → Datetime.le m x.
Proof.
  destruct ks as [|k ks]; [done|]. intros _. eexists. split; [reflexivity|].
  apply (foldl_min_spec ks k).
Qed.

(** X9. With [--exch] and no file, the calendar client is built with the
    password and asked once, for the hours from the earliest overdue week
    on, which is the first week that the loop visits; its answer is the
    data of the run, its exception ends the run. No file is opened. *)
Theorem exchange_starts_at_earliest_week w args overdue :
  if_truthy (csv args) = None → exch args = true →
  overdue ≠ ∅ →
  PyExch w (passwd args) = Returns tt →
  ∃ start_date,
    start_date ∈ overdue
    ∧ (∀ k, k ∈ overdue → Datetime.le start_date k)
    ∧ head (sorted overdue) = Some start_date
    ∧ load_data w args overdue
      = ([New_PyExch (passwd args); Weekly_hours_worked start_date],
         match weekly_hours_worked w start_date with
         | Returns data => Return data
         | Raises e => Raise e
         end).
Proof.
  intros Hcsv Hexch Hne Hpy.
  destruct (min_key_spec (elements overdue)) as (m & Hmin & Hin & Hle).
  { intros Hnil. apply elements_empty_inv, leibniz_equiv in Hnil. done. }
  exists m. split; [by apply elem_of_elements|].
  split; [intros k Hk; by apply Hle, elem_of_elements|].
  split.
  - pose proof (sorted_ascending overdue) as Hasc.
    assert (Hm : m ∈ sorted overdue) by (by apply elem_of_sorted, elem_of_elements).
    destruct (sorted overdue) as [|x rest] eqn:Hsorted; [by apply elem_of_nil in Hm|].
    simpl. f_equal. apply (anti_symm Datetime.le).
    + apply StronglySorted_cons in Hasc as [Hall _]. rewrite Forall_forall in Hall.
      apply elem_of_cons in Hm as [->|Hm]; [apply date_le_refl|]. by destruct (Hall m Hm).
    + apply Hle, elem_of_elements, elem_of_sorted. rewrite Hsorted. by left.
  - unfold load_data, call. rewrite Hcsv, Hexch, Hpy, Hmin.
    by destruct (weekly_hours_worked w m).
Qed.

Lemma exchange_starts_at_earliest_week_witness :
  ∃ start_date,
    start_date ∈ three_weeks
    ∧ (∀ k, k ∈ three_weeks → Datetime.le start_date k)
    ∧ head (sorted three_weeks) = Some start_date
    ∧ load_data (reliable three_weeks [] three_records)
                (mkArgs "user" "secret" false false None true false) three_weeks
      = ([New_PyExch "secret"; Weekly_hours_worked start_date],
         match weekly_hours_worked (reliable three_weeks [] three_records) start_date with
         | Returns data => Return data
         | Raises e => Raise e
         end).
Proof.
  apply (exchange_starts_at_earliest_week (reliable three_weeks [] three_records)
           (mkArgs "user" "secret" false false None true false) three_weeks);
    [reflexivity|reflexivity| |reflexivity].
  intros H. apply (f_equal size) in H. vm_compute in H. discriminate.
Defined.

(** X10. When [args.csv] is absent or the empty string and [--exch] is not
    set, no data source is consulted and the data is empty: the run visits
    every overdue week in ascending order, finds no match, submits nothing
    and returns. *)
Theorem no_source_no_submission w args overdue :
  Time_Reporter w (user args) (passwd args) = Returns tt →
  get_overdue_weeks w = Returns overdue →
  overdue ≠ ∅ →
  list_overdue args = false →
  if_truthy (csv args) = None → exch args = false →
  run w args = (start args ++ (Log INFO ∘ Overdue_date <$> sorted overdue), Return tt).
Proof.
  intros Hr Ho Hne Hlist Hcsv Hexch.
  assert (Hload : load_data w args overdue = ([], Return ∅)).
  { unfold load_data. by rewrite Hcsv, Hexch. }
  rewrite (run_reaches_loop w args overdue ∅ Hr Ho Hne Hlist) by (by rewrite Hload).
  rewrite Hload, walk_unmatched by (intros; apply lookup_empty). done.
Qed.

Lemma no_source_no_submission_witness :
  run (reliable two_weeks three_lines three_records)
      (mkArgs "user" "secret" false false (Some "") false false)
  = ([New_Time_Reporter "user" "secret"; Get_overdue_weeks;
      Log INFO (Overdue_date (mkDate 2023 1 1)); Log INFO (Overdue_date (mkDate 2023 1 8))],
     Return tt).
Proof.
  assert (Hne : two_weeks ≠ ∅).
  { intros H. apply (f_equal size) in H. vm_compute in H. discriminate. }
  rewrite (no_source_no_submission (reliable two_weeks three_lines three_records)
             (mkArgs "user" "secret" false false (Some "") false false) two_weeks
             eq_refl eq_refl Hne eq_refl eq_refl eq_refl).
  vm_compute. reflexivity.
Defined.

(** ** [process_args] *)

Lemma strip_right_split p s :
  ∃ sp, s = Py.strip_right p s +:+ sp ∧ all p sp = true.
Proof.
  induction s as [|c s (sp & Hs & Hsp)]; [by exists ""|]. simpl.
  destruct (Py.strip_right p s) as [|a r] eqn:Hr.
  - assert (Hs' : s = sp) by exact Hs. subst sp. destruct (p c) eqn:Hc.
    + exists (String c s). split; [done|]. simpl. by rewrite Hc, Hsp.
    + by exists s.
  - exists sp. split; [|done]. exact (f_equal (String c) Hs).
Qed.

Lemma rstrip_no_trailing_space s : no_trailing_space (Py.rstrip s) = true.
Proof.
  unfold Py.rstrip. induction s as [|c s IH]; [done|]. simpl.
  destruct (Py.strip_right Py.isspace s) as [|a r] eqn:Hr.
  - destruct (Py.isspace c) eqn:Hc; [done|]. simpl. by rewrite Hc.
  - exact IH.
Qed.

Lemma check_user_returns env args :
  Cli.truthy (Cli.user args) = true ∨ (∃ u, Cli.getuser env = Returns u) →
  ∃ t args1,
    Cli.check_user env args = (t, Return args1)
    ∧ Cli.pwdfile args1 = Cli.pwdfile args
    ∧ (∀ p, Cli.Getpass p ∉ t).
Proof.
  unfold Cli.check_user. intros Hu.
  destruct (Cli.truthy (Cli.user args)).
  - exists [], args. split; [done|]. split; [done|]. intros p. apply not_elem_of_nil.
  - destruct Hu as [?|[u Hu]]; [done|]. rewrite Hu.
    exists [Cli.Getuser; Cli.Log_no_user u], (Cli.set_user args u).
    split; [done|]. split; [done|].
    by intros p [?|[?|?%elem_of_nil]%elem_of_cons]%elem_of_cons.
Qed.

(** X11. With a password file that has at least one line, the password is
    the first line without its trailing whitespace: it never ends in
    whitespace, the line is the password followed by whitespace only, the
    other lines play no part, and the user is not prompted. *)
Theorem password_is_first_line_stripped env args path l rest :
  Cli.pwdfile args = Some path → path ≠ "" →
  Cli.truthy (Cli.user args) = true ∨ (∃ u, Cli.getuser env = Returns u) →
  Cli.open_pwdfile env path = Returns (l :: rest) →
  ∃ t args',
    Cli.process_args env args = (t, Return args')
    ∧ Cli.passwd args' = Some (Py.rstrip l)
    ∧ no_trailing_space (Py.rstrip l) = true
    ∧ (∃ sp, l = Py.rstrip l +:+ sp ∧ all Py.isspace sp = true)
    ∧ (∀ p, Cli.Getpass p ∉ t).
Proof.
  intros Hpwd Hpath Huser Hopen.
  destruct (check_user_returns env args Huser) as (t1 & args1 & Hcheck & Hpwd1 & Hno).
  unfold Cli.process_args. rewrite Hcheck.
  unfold Cli.get_passwd. rewrite Hpwd1, Hpwd. simpl.
  destruct path as [|c path]; [done|]. simpl. rewrite Hopen.
  eexists _, _. split; [reflexivity|]. split; [done|].
  split; [apply rstrip_no_trailing_space|]. split; [apply strip_right_split|].
  intros p [Hin|Hin]%elem_of_app; [by apply (Hno p)|].
  by apply list_elem_of_singleton in Hin.
Qed.

Lemma password_is_first_line_stripped_witness :
  ∃ t args',
    Cli.process_args
      (Cli.mkConsole (Returns "me") (fun _ => Returns ["s3cret  " +:+ LF; "other"])
                     (fun _ => Returns "typed"))
      (Cli.mkNamespace None (Some "pw.txt") None false false false false None false true)
    = (t, Return args')
    ∧ Cli.passwd args' = Some "s3cret".
Proof.
  destruct (password_is_first_line_stripped
              (Cli.mkConsole (Returns "me") (fun _ => Returns ["s3cret  " +:+ LF; "other"])
                             (fun _ => Returns "typed"))
              (Cli.mkNamespace None (Some "pw.txt") None false false false false None false true)
              "pw.txt" ("s3cret  " +:+ LF) ["other"])
    as (t & args' & Hrun & Hpw & _); [reflexivity|discriminate|right; by exists "me"|reflexivity|].
  by exists t, args'.
Defined.

(** X12. Whenever [process_args] returns, the user is set, and is the one
    given when one was given; the flags and the choice of the action are
    those parsed; and the password is missing only if none was parsed and
    the password file is empty. *)
Theorem process_args_result env args t args' :
  Cli.process_args env args = (t, Return args') →
  Cli.user args' ≠ None
  ∧ (Cli.truthy (Cli.user args) = true → Cli.user args' = Cli.user args)
  ∧ (Cli.dryrun args', Cli.quiet args', Cli.debug args', Cli.once args')
    = (Cli.dryrun args, Cli.quiet args, Cli.debug args, Cli.once args)
  ∧ (Cli.csv args', Cli.exch args', Cli.list_overdue args', Cli.pwdfile args')
    = (Cli.csv args, Cli.exch args, Cli.list_overdue args, Cli.pwdfile args)
  ∧ (Cli.passwd args' = None →
     Cli.passwd args = None
     ∧ ∃ path, Cli.pwdfile args = Some path ∧ path ≠ ""
               ∧ Cli.open_pwdfile env path = Returns []).
Proof.
  unfold Cli.process_args, Cli.check_user.
  assert (Hget : ∀ a t' a',
    Cli.get_passwd env a = (t', Return a') →
    Cli.user a' = Cli.user a
    ∧ (Cli.dryrun a', Cli.quiet a', Cli.debug a', Cli.once a')
      = (Cli.dryrun a, Cli.quiet a, Cli.debug a, Cli.once a)
    ∧ (Cli.csv a', Cli.exch a', Cli.list_overdue a', Cli.pwdfile a')
      = (Cli.csv a, Cli.exch a, Cli.list_overdue a, Cli.pwdfile a)
    ∧ (Cli.passwd a' = None →
       Cli.passwd a = None
       ∧ ∃ path, Cli.pwdfile a = Some path ∧ path ≠ ""
                 ∧ Cli.open_pwdfile env path = Returns [])).
  { intros [u pf pw f1 f2 f3 f4 cs ex lo] t' a'. unfold Cli.get_passwd. simpl.
    destruct pf as [[|c path]|]; simpl.
    - destruct (Cli.getpass env _); intros [= <- <-]. by repeat split.
    - destruct (Cli.open_pwdfile env (String c path)) as [[|l f]|] eqn:Ho;
        intros [= <- <-]; simpl.
      + repeat split; try done. by exists (String c path).
      + by repeat split.
    - destruct (Cli.getpass env _); intros [= <- <-]. by repeat split. }
  destruct (Cli.truthy (Cli.user args)) eqn:Hu.
  - destruct (Cli.get_passwd env args) as [t' o] eqn:Hg. intros [= <- ->].
    destruct (Hget _ _ _ Hg) as (Huser & Hflags & Hact & Hpw).
    split; [rewrite Huser; by destruct (Cli.user args)|].
    split; [intros _; exact Huser|].
    split; [exact Hflags|]. split; [exact Hact|exact Hpw].
  - destruct (Cli.getuser env) as [u|e]; [|done].
    destruct (Cli.get_passwd env (Cli.set_user args u)) as [t' o] eqn:Hg.
    intros [= <- ->].
    destruct (Hget _ _ _ Hg) as (Huser & Hflags & Hact & Hpw).
    simpl in *. split; [by rewrite Huser|]. split; [done|].
    split; [exact Hflags|]. split; [exact Hact|exact Hpw].
Qed.

Lemma process_args_result_witness :
  Cli.user (Cli.mkNamespace (Some "me") None (Some "typed") true false false false
                            (Some "hours.csv") false false) ≠ None.
Proof.
  apply (process_args_result
           (Cli.mkConsole (Raises (Error "KeyError")) (fun _ => Returns [])
                          (fun _ => Returns "typed"))
           (Cli.mkNamespace (Some "me") None (Some "given") true false false false
                            (Some "hours.csv") false false)
           [Cli.Getpass "Enter passwd for 'me':"]).
  reflexivity.
Defined.

(** X13. Without a password file the user is always prompted, last of all
    and once, with a prompt that names the user in effect (the one given,
    or the one that [getpass.getuser] returned); the password is the answer
    to the prompt, whatever password was parsed. *)
Theorem prompt_gives_password env args t args' :
  Cli.truthy (Cli.pwdfile args) = false →
  Cli.process_args env args = (t, Return args') →
  ∃ u p,
    Cli.user args' = Some u
    ∧ (Cli.truthy (Cli.user args) = false → Cli.getuser env = Returns u)
    ∧ last t = Some (Cli.Getpass ("Enter passwd for '" +:+ u +:+ "':"))
    ∧ length (filter Cli.is_prompt t) = 1%nat
    ∧ Cli.getpass env ("Enter passwd for '" +:+ u +:+ "':") = Returns p
    ∧ Cli.passwd args' = Some p.
Proof.
  intros Hpwd.
  assert (Hget : ∀ a u t' a',
    Cli.user a = Some u → Cli.pwdfile a = Cli.pwdfile args →
    Cli.get_passwd env a = (t', Return a') →
    ∃ p, t' = [Cli.Getpass ("Enter passwd for '" +:+ u +:+ "':")]
         ∧ Cli.getpass env ("Enter passwd for '" +:+ u +:+ "':") = Returns p
         ∧ a' = Cli.set_passwd a p).
  { intros a u t' a' Hu Hp. unfold Cli.get_passwd. rewrite Hp, Hu.
    destruct (Cli.pwdfile args) as [path|]; simpl.
    - simpl in Hpwd. destruct path as [|c path]; [|done]. simpl.
      destruct (Cli.getpass env _) as [p|] eqn:Hg; intros [= <- <-]. by exists p.
    - destruct (Cli.getpass env _) as [p|] eqn:Hg; intros [= <- <-]. by exists p. }
  unfold Cli.process_args, Cli.check_user.
  destruct (Cli.user args) as [u|] eqn:Hu; simpl.
  - destruct u as [|c u]; simpl.
    + destruct (Cli.getuser env) as [u'|e] eqn:Hgu; [|done].
      destruct (Cli.get_passwd env (Cli.set_user args u')) as [t' o] eqn:Hg.
      intros [= <- ->].
      destruct (Hget (Cli.set_user args u') u' _ _ eq_refl eq_refl Hg)
        as (p & -> & Hp & ->).
      exists u', p. by repeat split.
    + destruct (Cli.get_passwd env args) as [t' o] eqn:Hg. intros [= <- ->].
      destruct (Hget args (String c u) _ _ Hu eq_refl Hg) as (p & -> & Hp & ->).
      exists (String c u), p. by repeat split.
  - destruct (Cli.getuser env) as [u'|e] eqn:Hgu; [|done].
    destruct (Cli.get_passwd env (Cli.set_user args u')) as [t' o] eqn:Hg.
    intros [= <- ->].
    destruct (Hget (Cli.set_user args u') u' _ _ eq_refl eq_refl Hg)
        as (p & -> & Hp & ->).
    exists u', p. by repeat split.
Qed.

Lemma prompt_gives_password_witness :
  ∃ u p,
    Cli.user (Cli.set_passwd
                (Cli.set_user (Cli.mkNamespace None None (Some "given") false false false
                                               false None false true) "me") "typed")
    = Some u
    ∧ Cli.getpass (Cli.mkConsole (Returns "me") (fun _ => Returns [])
                                 (fun _ => Returns "typed"))
                  ("Enter passwd for '" +:+ u +:+ "':") = Returns p
    ∧ Cli.passwd (Cli.set_passwd
                    (Cli.set_user (Cli.mkNamespace None None (Some "given") false false false
                                                   false None false true) "me") "typed")
      = Some p.
Proof.
  destruct (prompt_gives_password
              (Cli.mkConsole (Returns "me") (fun _ => Returns []) (fun _ => Returns "typed"))
              (Cli.mkNamespace None None (Some "given") false false false false None false true)
              [Cli.Getuser; Cli.Log_no_user "me"; Cli.Getpass "Enter passwd for 'me':"]
              (Cli.set_passwd
                 (Cli.set_user (Cli.mkNamespace None None (Some "given") false false false
                                                false None false true) "me") "typed")
              eq_refl eq_refl)
    as (u & p & Hu & _ & _ & _ & Hp & Hpw).
  by exists u, p.
Defined.

(** ** [run]: the order of the visits and of the submissions *)

Lemma submitted_app t1 t2 : submitted (t1 ++ t2) = submitted t1 ++ submitted t2.
Proof. apply omap_app. Qed.

Lemma submitted_quiet t : Forall quiet t → submitted t = [].
Proof.
  induction 1 as [|e t (Hs & _ & _) _ IH]; [done|].
  change (submitted ([e] ++ t) = []). rewrite submitted_app, IH.
  by destruct e.
Qed.

Lemma overdue_logs ks :
  visited (Log INFO ∘ Overdue_date <$> ks) = ks
  ∧ submitted (Log INFO ∘ Overdue_date <$> ks) = [].
Proof.
  induction ks as [|k ks [IHv IHs]]; [done|]. split.
  - cbn. f_equal. exact IHv.
  - exact IHs.
Qed.

Lemma submitted_visit w args data k hours :
  data !! k = Some hours →
  submitted (trace (visit w args data k)) = if dryrun args then [] else [k].
Proof.
  intros Hk. rewrite visit_unfold, Hk.
  destruct (dryrun args); [done|]. by destruct (submit w k hours).
Qed.

(** C4, as the code has it. The overdue weeks in ascending order are all
    the overdue weeks, each once, strictly ascending; the keys that a run
    visits are a first part of them, and all of them when the run returns.
    If, in once mode, the run has handled a week [wk] that has a record,
    then the weeks visited are the overdue weeks up to [wk], no overdue
    week before [wk] has a record, and [wk] is the one week submitted (none
    in a dry run). The calls of [submit] are a first part of the due
    submissions, those of the overdue weeks that have a record. *)
Theorem visits_in_ascending_order w args :
  StronglySorted Datetime.lt (visited (trace (run w args)))
  ∧ (∀ overdue,
       get_overdue_weeks w = Returns overdue →
       StronglySorted Datetime.lt (sorted overdue)
       ∧ (∀ k, k ∈ sorted overdue ↔ k ∈ overdue)
       ∧ visited (trace (run w args)) `prefix_of` sorted overdue
       ∧ (result (run w args) = Return tt →
          visited (trace (run w args)) = sorted overdue))
  ∧ (∀ overdue data wk hours,
       get_overdue_weeks w = Returns overdue →
       result (load_data w args overdue) = Return data →
       once args = true →
       wk ∈ visited (trace (run w args)) → data !! wk = Some hours →
       (∃ pre post,
          sorted overdue = pre ++ wk :: post
          ∧ visited (trace (run w args)) = pre ++ [wk]
          ∧ ∀ k, k ∈ pre → data !! k = None)
       ∧ (∀ k, k ∈ overdue → Datetime.lt k wk → data !! k = None)
       ∧ submitted (trace (run w args)) = (if dryrun args then [] else [wk])
       ∧ filter is_submit (trace (run w args)) `prefix_of` due data (sorted overdue)).
Proof.
  destruct (run_before_loop w args) as [[Hq Hres]|(ov & dt & t0 & Ho & Hd & Hq & Hrun)].
  { destruct (quiet_filter _ Hq) as (_ & _ & Hv & _). rewrite Hv.
    split; [constructor|]. split.
    - intros overdue _. split; [apply sorted_ascending|].
      split; [apply elem_of_sorted|]. split; [apply prefix_nil|done].
    - by intros ? ? ? ? _ _ _ ?%elem_of_nil. }
  destruct (quiet_filter _ Hq) as (Hqs & _ & Hqv & _).
  assert (Hv : visited (trace (run w args))
               = visited (trace (walk w args dt (sorted ov)))).
  { by rewrite Hrun, trace_pair, visited_app, Hqv. }
  rewrite Hv. split; [|split].
  - eapply StronglySorted_prefix; [apply visited_walk_prefix|apply sorted_ascending].
  - intros overdue Ho'. assert (overdue = ov) as -> by congruence.
    split; [apply sorted_ascending|]. split; [apply elem_of_sorted|].
    split; [apply visited_walk_prefix|].
    rewrite Hrun, result_pair. apply visited_walk_all.
  - intros overdue data wk hours Ho' Hd' Honce Hin Hk.
    assert (overdue = ov) as -> by congruence.
    assert (data = dt) as -> by congruence.
    destruct (walk_once_visited w args dt (sorted ov) wk Honce Hin)
      as (pre & post & Hsorted & Hpre); [by exists hours|].
    destruct (walk_once_stops w args dt pre wk hours post Honce Hpre Hk) as [Hwalk _].
    destruct (overdue_logs pre) as [Hlv Hls].
    split; [|split; [|split]].
    + exists pre, post. split; [done|]. split; [|done].
      by rewrite Hsorted, Hwalk, trace_pair, visited_app, Hlv, visited_visit.
    + intros k Hk' Hlt. apply Hpre.
      apply elem_of_sorted in Hk'. rewrite Hsorted in Hk'.
      pose proof (sorted_ascending ov) as Hasc. rewrite Hsorted in Hasc.
      apply elem_of_app in Hk' as [?|[->|Hpost]%elem_of_cons]; [done| |].
      * by destruct Hlt.
      * apply StronglySorted_app_1_r, StronglySorted_cons in Hasc as [Hall _].
        rewrite Forall_forall in Hall.
        destruct (date_lt_asymm k wk Hlt (Hall k Hpost)).
    + rewrite Hrun, trace_pair, Hsorted, Hwalk, trace_pair.
      rewrite !submitted_app, (submitted_quiet _ Hq), Hls.
      by rewrite (submitted_visit w args dt wk hours Hk).
    + rewrite Hrun, trace_pair, filter_app, Hqs. apply walk_submits_prefix.
Qed.

Lemma visits_in_ascending_order_witness :
  visited (trace (run (reliable three_weeks three_lines ∅) (csv_args false true false)))
  = [mkDate 2022 12 25; mkDate 2023 1 8]
  ∧ (∃ pre post,
       sorted three_weeks = pre ++ mkDate 2023 1 8 :: post
       ∧ visited (trace (run (reliable three_weeks three_lines ∅) (csv_args false true false)))
         = pre ++ [mkDate 2023 1 8]
       ∧ ∀ k, k ∈ pre → three_records !! k = None)
  ∧ submitted (trace (run (reliable three_weeks three_lines ∅) (csv_args false true false)))
    = [mkDate 2023 1 8].
Proof.
  assert (Hvisited : visited (trace (run (reliable three_weeks three_lines ∅)
                                         (csv_args false true false)))
                     = [mkDate 2022 12 25; mkDate 2023 1 8])
    by (vm_compute; reflexivity).
  assert (Hdata : result (load_data (reliable three_weeks three_lines ∅)
                            (csv_args false true false) three_weeks)
                  = Return three_records) by (vm_compute; reflexivity).
  assert (Hin : mkDate 2023 1 8
                ∈ visited (trace (run (reliable three_weeks three_lines ∅)
                                      (csv_args false true false)))).
  { rewrite Hvisited. apply list_elem_of_further, list_elem_of_here. }
  destruct (visits_in_ascending_order (reliable three_weeks three_lines ∅)
              (csv_args false true false)) as (_ & _ & Honce).
  destruct (Honce three_weeks three_records (mkDate 2023 1 8) [8; 4; 10; 8; 0]
              eq_refl Hdata eq_refl Hin eq_refl) as (Hpre & _ & Hsub & _).
  split; [exact Hvisited|]. split; [exact Hpre|exact Hsub].
Defined.

(** C4, as stated, fails in its last words: the weeks submitted are not a
    first part of the oldest overdue weeks. In once mode, with three overdue
    weeks of which the oldest has no record, the one week submitted is the
    second oldest. *)
Lemma submitted_weeks_are_no_prefix :
  result (run (reliable three_weeks three_lines ∅) (csv_args false true false))
  = SystemExit None
  ∧ sorted three_weeks = [mkDate 2022 12 25; mkDate 2023 1 8; mkDate 2023 1 15]
  ∧ submitted (trace (run (reliable three_weeks three_lines ∅) (csv_args false true false)))
    = [mkDate 2023 1 8]
  ∧ ¬ submitted (trace (run (reliable three_weeks three_lines ∅) (csv_args false true false)))
      `prefix_of` sorted three_weeks.
Proof.
  assert (Hsorted : sorted three_weeks
                    = [mkDate 2022 12 25; mkDate 2023 1 8; mkDate 2023 1 15])
    by (vm_compute; reflexivity).
  assert (Hsub : submitted (trace (run (reliable three_weeks three_lines ∅)
                                       (csv_args false true false)))
                 = [mkDate 2023 1 8]) by (vm_compute; reflexivity).
  split; [vm_compute; reflexivity|]. split; [exact Hsorted|]. split; [exact Hsub|].
  rewrite Hsub, Hsorted. intros [rest Hrest]. discriminate.
Qed.
